(** * File reference resolution and refresh (storage_manager.py, database.py)

    A shallow embedding of the file-reference subsystem of the EduLearn
    miniapp: the MongoDB collections it touches, the [Database] access
    methods, and the [StorageManager] methods built on them.

    Conventions.
    - A collection is the list of its documents in natural order;
      [find_one] returns the first match, [update_one] rewrites the first
      match, [insert_one] appends.  The unique indexes requested by
      [Database.create_indexes] are not enforced, and store operations do
      not raise (the one exception, the index that [assign_course_to_user]
      exists to catch, is stated where that function is modelled).
    - A timestamp is an integer number of microseconds (the resolution of
      [datetime]); [timedelta.total_seconds() < n] is the comparison of the
      microsecond difference with [n * 10^6].  The store keeps a datetime
      at millisecond resolution: every stamp a document is written with is
      the clock reading truncated to the millisecond ([bson_datetime]).
    - Everything outside the process (the clock, the Telegram bot API, the
      HTTP download, the random token source) is an oracle indexed by the
      number of calls made so far; the counters live in the [World].
    - Python exceptions are values: an upstream call returns either its
      result or the exception it raises, and [try/except] is a match.
    - Every [logger] call, upstream call, sleep and store write is appended
      to the world's [trace]. *)

From Stdlib Require Import ZArith List String Ascii Bool Lia DecimalString.
From Stdlib Require Import Strings.Byte.
From Stdlib Require Import DecimalPos DecimalZ.
Import ListNotations.
Local Open Scope string_scope.
Local Open Scope Z_scope.

(* ------------------------------------------------------------------ *)
(** ** Python values *)

Module Py.

(** [str(n)] for an [int]. *)
Definition str_int (n : Z) : string := NilZero.string_of_int (Z.to_int n).

(** Truth value of an [Optional[str]]: [None] and [''] are falsy. *)
Definition truthy (o : option string) : bool :=
  match o with
  | Some s => negb (String.eqb s "")
  | None => false
  end.

(** [needle in hay] on strings. *)
Fixpoint contains (needle hay : string) : bool :=
  String.prefix needle hay
  || match hay with
     | EmptyString => false
     | String _ rest => contains needle rest
     end.

(** How an f-string renders an [Optional[str]]. *)
Definition fmt (o : option string) : string :=
  match o with
  | Some s => s
  | None => "None"
  end.

End Py.

(* ------------------------------------------------------------------ *)
(** ** Documents *)

(** The [metadata] sub-document of a file reference; a key that is absent
    (as in the [{}] default) reads as [None]. *)
Record Metadata := {
  md_channel_id : option string;
  md_channel_name : option string;
  md_message_id : option Z;
  md_mime_type : option string
}.

Definition empty_metadata : Metadata :=
  {| md_channel_id := None; md_channel_name := None;
     md_message_id := None; md_mime_type := None |}.

(** A document of the [file_references] collection. *)
Record FileReference := {
  ref_reference_id : string;
  ref_telegram_file_id : string;
  ref_file_type : string;
  ref_filename : option string;
  ref_file_size : option Z;
  ref_course_id : option string;
  ref_metadata : Metadata;
  ref_is_active : bool;
  ref_created_at : Z;
  ref_last_refreshed : option Z
}.

(** A document of the [media_files] collection. *)
Record MediaFile := {
  media_reference_id : string;
  media_course_id : string;
  media_file_type : string;
  media_filename : option string;
  media_file_size : option Z;
  media_telegram_file_id : string;
  media_channel_id : string;
  media_message_id : Z;
  media_order : Z;
  media_is_active : bool;
  media_created_at : Z;
  media_updated_at : Z
}.

(** A document of the [channel_mappings] collection. *)
Record ChannelMapping := {
  map_channel_id : string;
  map_course_id : string;
  map_is_active : bool;
  map_created_at : Z;
  map_last_synced : Z
}.

(** The [$set] document passed to [update_file_reference], restricted to
    the keys the callers use. *)
Record RefUpdate := {
  upd_telegram_file_id : option string;
  upd_is_active : option bool
}.

(* ------------------------------------------------------------------ *)
(** ** Telegram objects and upstream results *)

(** [message.document] / [message.video]. *)
Record FileInfo := {
  file_id : string;
  file_name : option string;
  mime_type : option string;
  file_size : option Z
}.

Record Chat := {
  chat_id : Z;
  chat_type : string;
  chat_title : option string
}.

Record Message := {
  chat : Chat;
  message_id : Z;
  document : option FileInfo;
  video : option FileInfo
}.

Record Update := {
  message : option Message
}.

(** Subclasses of [telegram.error.TelegramError]. *)
Inductive TelegramErrorClass :=
| BadRequest | Forbidden | InvalidToken | NetworkError | TimedOut | RetryAfter.

(** Network failure, timeout, rate limit. *)
Definition transient (c : TelegramErrorClass) : bool :=
  match c with
  | NetworkError | TimedOut | RetryAfter => true
  | BadRequest | Forbidden | InvalidToken => false
  end.

(** A raised exception with its [str(e)]. *)
Inductive Exn :=
| TelegramError (c : TelegramErrorClass) (msg : string)
| OtherException (msg : string).

Definition exn_str (e : Exn) : string :=
  match e with
  | TelegramError _ msg => msg
  | OtherException msg => msg
  end.

(** Outcome of [bot.get_file(file_id)]: the [file_path] of the returned
    [File], or the exception raised. *)
Inductive GetFileResult :=
| GetFileOk (file_path : string)
| GetFileRaises (e : Exn).

(** Outcome of [session.get(url)] followed by [response.read()]. *)
Inductive HttpResult :=
| HttpResponse (status : Z) (content : list byte)
| HttpRaises (e : Exn).

(* ------------------------------------------------------------------ *)
(** ** The world *)

Inductive Level := INFO | WARNING | ERROR.

Inductive Event :=
| Log (level : Level) (msg : string)
| BotGetFile (handle : string)
| HttpGet (url : string)
| Sleep (seconds : Z)
| DbInsert (collection key : string)
| DbUpdate (collection key : string).

(** The environment: what the outside answers to the n-th call. *)
Record Env := {
  utcnow_at : nat -> Z;
  utc_offset : Z;
  bot_get_file_at : nat -> string -> GetFileResult;
  http_get_at : nat -> string -> HttpResult;
  token_hex_at : nat -> string
}.

Record World := {
  file_references : list FileReference;
  media_files : list MediaFile;
  channel_mappings : list ChannelMapping;
  clock_reads : nat;
  upstream_calls : nat;
  tokens_drawn : nat;
  trace : list Event
}.

(** Microseconds in a second, and in an hour. *)
Definition second : Z := 1000000.
Definition hour : Z := 3600 * second.

(** Microseconds in a millisecond, and a datetime as the store keeps it:
    truncated to the millisecond below. *)
Definition millisecond : Z := 1000.
Definition bson_datetime (t : Z) : Z := t / millisecond * millisecond.
Arguments bson_datetime : simpl never.

(** State-passing computations over the world. *)
Definition M (A : Type) : Type := World -> A * World.

Definition ret {A} (a : A) : M A := fun w => (a, w).

Definition bind {A B} (m : M A) (k : A -> M B) : M B :=
  fun w => let (a, w1) := m w in k a w1.

Declare Scope m_scope.
Delimit Scope m_scope with M.
Notation "x <- c ;; k" := (bind c (fun x => k))
  (at level 61, c at next level, right associativity) : m_scope.
Notation "c ;;; k" := (bind c (fun _ => k))
  (at level 61, right associativity) : m_scope.

Definition set_file_references (l : list FileReference) (w : World) : World :=
  {| file_references := l; media_files := media_files w;
     channel_mappings := channel_mappings w; clock_reads := clock_reads w;
     upstream_calls := upstream_calls w; tokens_drawn := tokens_drawn w;
     trace := trace w |}.

Definition set_media_files (l : list MediaFile) (w : World) : World :=
  {| file_references := file_references w; media_files := l;
     channel_mappings := channel_mappings w; clock_reads := clock_reads w;
     upstream_calls := upstream_calls w; tokens_drawn := tokens_drawn w;
     trace := trace w |}.

Definition set_clock_reads (n : nat) (w : World) : World :=
  {| file_references := file_references w; media_files := media_files w;
     channel_mappings := channel_mappings w; clock_reads := n;
     upstream_calls := upstream_calls w; tokens_drawn := tokens_drawn w;
     trace := trace w |}.

Definition set_upstream_calls (n : nat) (w : World) : World :=
  {| file_references := file_references w; media_files := media_files w;
     channel_mappings := channel_mappings w; clock_reads := clock_reads w;
     upstream_calls := n; tokens_drawn := tokens_drawn w;
     trace := trace w |}.

Definition set_tokens_drawn (n : nat) (w : World) : World :=
  {| file_references := file_references w; media_files := media_files w;
     channel_mappings := channel_mappings w; clock_reads := clock_reads w;
     upstream_calls := upstream_calls w; tokens_drawn := n;
     trace := trace w |}.

Definition set_trace (t : list Event) (w : World) : World :=
  {| file_references := file_references w; media_files := media_files w;
     channel_mappings := channel_mappings w; clock_reads := clock_reads w;
     upstream_calls := upstream_calls w; tokens_drawn := tokens_drawn w;
     trace := t |}.

Definition set_channel_mappings (l : list ChannelMapping) (w : World) : World :=
  {| file_references := file_references w; media_files := media_files w;
     channel_mappings := l; clock_reads := clock_reads w;
     upstream_calls := upstream_calls w; tokens_drawn := tokens_drawn w;
     trace := trace w |}.

(** Append one event to the trace. *)
Definition emit (e : Event) : M unit :=
  fun w => (tt, set_trace (trace w ++ [e]) w).

Definition logger (l : Level) (msg : string) : M unit := emit (Log l msg).

Section Effects.
Variable env : Env.

(** [datetime.utcnow()]. *)
Definition utcnow : M Z :=
  fun w => (utcnow_at env (clock_reads w),
            set_clock_reads (S (clock_reads w)) w).

(** [await self.bot.get_file(file_id)]. *)
Definition bot_get_file (handle : string) : M GetFileResult :=
  fun w => (bot_get_file_at env (upstream_calls w) handle,
            set_trace (trace w ++ [BotGetFile handle])
              (set_upstream_calls (S (upstream_calls w)) w)).

(** [session.get(url)] and [response.read()]. *)
Definition http_get (url : string) : M HttpResult :=
  fun w => (http_get_at env (upstream_calls w) url,
            set_trace (trace w ++ [HttpGet url])
              (set_upstream_calls (S (upstream_calls w)) w)).

(** [secrets.token_hex(8)]. *)
Definition token_hex : M string :=
  fun w => (token_hex_at env (tokens_drawn w),
            set_tokens_drawn (S (tokens_drawn w)) w).

(** [await asyncio.sleep(seconds)]. *)
Definition sleep (seconds : Z) : M unit := emit (Sleep seconds).

End Effects.

(* ------------------------------------------------------------------ *)
(** ** Collections *)

(** [find_one]: the first document matching the filter. *)
Definition find_one {A} (p : A -> bool) (l : list A) : option A := find p l.

(** [update_one]: rewrite the first document matching the filter. *)
Fixpoint update_one {A} (p : A -> bool) (f : A -> A) (l : list A) : list A :=
  match l with
  | [] => []
  | x :: rest => if p x then f x :: rest else x :: update_one p f rest
  end.

(** [cursor.sort("order", ASCENDING)] on media files, as a stable
    insertion sort (the order among equal keys is the database's choice). *)
Fixpoint insert_by_order (m : MediaFile) (l : list MediaFile) : list MediaFile :=
  match l with
  | [] => [m]
  | x :: rest =>
      if media_order m <? media_order x then m :: x :: rest
      else x :: insert_by_order m rest
  end.

Definition sort_by_order (l : list MediaFile) : list MediaFile :=
  fold_right insert_by_order [] l.

Definition has_reference_id (reference_id : string) (r : FileReference) : bool :=
  String.eqb (ref_reference_id r) reference_id.

(** The effect of [{"$set": update_data}] on one document, [update_data]
    carrying the keys of [u] and [last_refreshed = now], stored at the
    millisecond. *)
Definition apply_update (u : RefUpdate) (now : Z) (r : FileReference)
  : FileReference :=
  {| ref_reference_id := ref_reference_id r;
     ref_telegram_file_id :=
       match upd_telegram_file_id u with
       | Some h => h
       | None => ref_telegram_file_id r
       end;
     ref_file_type := ref_file_type r;
     ref_filename := ref_filename r;
     ref_file_size := ref_file_size r;
     ref_course_id := ref_course_id r;
     ref_metadata := ref_metadata r;
     ref_is_active :=
       match upd_is_active u with
       | Some b => b
       | None => ref_is_active r
       end;
     ref_created_at := ref_created_at r;
     ref_last_refreshed := Some (bson_datetime now) |}.

(** Whether the [$set] changed the document ([modified_count]). *)
Definition ref_modified (r r' : FileReference) : bool :=
  negb (String.eqb (ref_telegram_file_id r) (ref_telegram_file_id r')
        && Bool.eqb (ref_is_active r) (ref_is_active r')
        && match ref_last_refreshed r, ref_last_refreshed r' with
           | Some a, Some b => a =? b
           | None, None => true
           | _, _ => false
           end).

(* ------------------------------------------------------------------ *)
(** ** database.py *)

Module Database.
Section Database.
Variable env : Env.
Local Open Scope m_scope.

(** [create_media_file]: stamps [created_at] and [updated_at], inserts. *)
Definition create_media_file (media_data : MediaFile) : M unit :=
  created <- utcnow env ;;
  updated <- utcnow env ;;
  let doc :=
    {| media_reference_id := media_reference_id media_data;
       media_course_id := media_course_id media_data;
       media_file_type := media_file_type media_data;
       media_filename := media_filename media_data;
       media_file_size := media_file_size media_data;
       media_telegram_file_id := media_telegram_file_id media_data;
       media_channel_id := media_channel_id media_data;
       media_message_id := media_message_id media_data;
       media_order := media_order media_data;
       media_is_active := media_is_active media_data;
       media_created_at := bson_datetime created;
       media_updated_at := bson_datetime updated |} in
  (fun w => (tt, set_media_files (media_files w ++ [doc]) w)) ;;;
  emit (DbInsert "media_files" (media_reference_id media_data)).

(** [get_course_media_files]: the filter always has [course_id]; it has
    [file_type] only when the argument is truthy. *)
Definition get_course_media_files (course_id : string)
    (file_type : option string) : M (list MediaFile) :=
  fun w =>
    let matches (m : MediaFile) :=
      String.eqb (media_course_id m) course_id
      && (if Py.truthy file_type
          then match file_type with
               | Some t => String.eqb (media_file_type m) t
               | None => true
               end
          else true) in
    (sort_by_order (filter matches (media_files w)), w).

(** [get_channel_mapping]. *)
Definition get_channel_mapping (channel_id : string)
  : M (option ChannelMapping) :=
  fun w =>
    (find_one (fun m => String.eqb (map_channel_id m) channel_id)
       (channel_mappings w), w).

(** [create_file_reference]: stamps [created_at] and [last_refreshed],
    inserts. *)
Definition create_file_reference (reference_data : FileReference) : M unit :=
  created <- utcnow env ;;
  refreshed <- utcnow env ;;
  let doc :=
    {| ref_reference_id := ref_reference_id reference_data;
       ref_telegram_file_id := ref_telegram_file_id reference_data;
       ref_file_type := ref_file_type reference_data;
       ref_filename := ref_filename reference_data;
       ref_file_size := ref_file_size reference_data;
       ref_course_id := ref_course_id reference_data;
       ref_metadata := ref_metadata reference_data;
       ref_is_active := ref_is_active reference_data;
       ref_created_at := bson_datetime created;
       ref_last_refreshed := Some (bson_datetime refreshed) |} in
  (fun w => (tt, set_file_references (file_references w ++ [doc]) w)) ;;;
  emit (DbInsert "file_references" (ref_reference_id reference_data)).

(** [get_file_reference]. *)
Definition get_file_reference (reference_id : string)
  : M (option FileReference) :=
  fun w => (find_one (has_reference_id reference_id) (file_references w), w).

(** [update_file_reference]: always adds [last_refreshed = utcnow()] to
    the [$set]; returns [modified_count > 0]. *)
Definition update_file_reference (reference_id : string)
    (update_data : RefUpdate) : M bool :=
  now <- utcnow env ;;
  modified <-
    (fun w =>
       (match find_one (has_reference_id reference_id) (file_references w) with
        | Some r => ref_modified r (apply_update update_data now r)
        | None => false
        end,
        set_file_references
          (update_one (has_reference_id reference_id)
             (apply_update update_data now) (file_references w)) w)) ;;
  emit (DbUpdate "file_references" reference_id) ;;;
  ret modified.

(** The filter [{"last_refreshed": {"$lt": cutoff_time}}]; a document
    without the field does not match. *)
Definition older_than (cutoff_time : Z) (r : FileReference) : bool :=
  match ref_last_refreshed r with
  | Some t => t <? cutoff_time
  | None => false
  end.

(** [get_expired_file_references]. *)
Definition get_expired_file_references (hours : Z)
  : M (list FileReference) :=
  now <- utcnow env ;;
  let cutoff_time := now - hours * hour in
  (fun w => (filter (older_than cutoff_time) (file_references w), w)).

(** [get_media_file_by_reference_id]. *)
Definition get_media_file_by_reference_id (reference_id : string)
  : M (option MediaFile) :=
  fun w =>
    (find_one (fun m => String.eqb (media_reference_id m) reference_id)
       (media_files w), w).

(** [create_channel_mapping]: stamps [created_at] and [last_synced],
    inserts. *)
Definition create_channel_mapping (mapping_data : ChannelMapping) : M unit :=
  created <- utcnow env ;;
  synced <- utcnow env ;;
  let doc :=
    {| map_channel_id := map_channel_id mapping_data;
       map_course_id := map_course_id mapping_data;
       map_is_active := map_is_active mapping_data;
       map_created_at := bson_datetime created;
       map_last_synced := bson_datetime synced |} in
  (fun w => (tt, set_channel_mappings (channel_mappings w ++ [doc]) w)) ;;;
  emit (DbInsert "channel_mappings" (map_channel_id mapping_data)).

(** The effect of [{"$set": {"last_synced": now}}] on one mapping. *)
Definition synced_at (now : Z) (m : ChannelMapping) : ChannelMapping :=
  {| map_channel_id := map_channel_id m;
     map_course_id := map_course_id m;
     map_is_active := map_is_active m;
     map_created_at := map_created_at m;
     map_last_synced := bson_datetime now |}.

(** [update_channel_sync]: returns [modified_count > 0]. *)
Definition update_channel_sync (channel_id : string) : M bool :=
  now <- utcnow env ;;
  let is_channel (m : ChannelMapping) :=
    String.eqb (map_channel_id m) channel_id in
  modified <-
    (fun w =>
       (match find_one is_channel (channel_mappings w) with
        | Some m => negb (map_last_synced m =? bson_datetime now)
        | None => false
        end,
        set_channel_mappings
          (update_one is_channel (synced_at now) (channel_mappings w)) w)) ;;
  emit (DbUpdate "channel_mappings" channel_id) ;;;
  ret modified.

(** [get_total_media_files_count]: [count_documents({})]. *)
Definition get_total_media_files_count : M Z :=
  fun w => (Z.of_nat (List.length (media_files w)), w).

End Database.
End Database.

(* ------------------------------------------------------------------ *)
(** ** storage_manager.py *)

(** The dictionary returned by [get_storage_stats]. *)
Record StorageStats := {
  total_files : Z;
  video_files : Z;
  pdf_files : Z;
  document_files : Z
}.

(** The dictionary returned by [get_file_metadata]. *)
Record FileMetadata := {
  meta_reference_id : string;
  meta_filename : option string;
  meta_file_type : string;
  meta_file_size : option Z;
  meta_created_at : Z;
  meta_last_refreshed : option Z;
  meta_metadata : Metadata
}.

Module StorageManager.
Section StorageManager.
Variable env : Env.
Local Open Scope m_scope.

(** [self.file_refresh_interval], in hours. *)
Definition file_refresh_interval : Z := 23.

(** [generate_reference_id]: [ref_<unix seconds>_<16 hex chars>].
    [timestamp()] reads the naive datetime as local time, hence the
    offset; [int()] truncates. *)
Definition generate_reference_id : M string :=
  now <- utcnow env ;;
  let timestamp :=
    Py.str_int (Z.quot (now - utc_offset env * second) second) in
  random_part <- token_hex env ;;
  ret ("ref_" ++ timestamp ++ "_" ++ random_part).

(** [create_file_reference]. *)
Definition create_file_reference (telegram_file_id file_type : string)
    (filename : option string) (file_size : option Z)
    (course_id : option string) (metadata : option Metadata) : M string :=
  reference_id <- generate_reference_id ;;
  let reference_data :=
    {| ref_reference_id := reference_id;
       ref_telegram_file_id := telegram_file_id;
       ref_file_type := file_type;
       ref_filename := filename;
       ref_file_size := file_size;
       ref_course_id := course_id;
       ref_metadata := match metadata with
                       | Some m => m
                       | None => empty_metadata
                       end;
       ref_is_active := true;
       (* the two stamps are set by [Database.create_file_reference] *)
       ref_created_at := 0;
       ref_last_refreshed := None |} in
  Database.create_file_reference env reference_data ;;;
  logger INFO ("Created file reference: " ++ reference_id) ;;;
  ret reference_id.

(** [find_file_in_channel]: logs the search and returns [None]. *)
Definition find_file_in_channel (channel_id : option string)
    (filename : option string) (file_type : string) : M (option string) :=
  logger INFO ("Searching for file " ++ Py.fmt filename
               ++ " in channel " ++ Py.fmt channel_id) ;;;
  ret None.

(** [refresh_file_id]. *)
Definition refresh_file_id (file_ref : FileReference) : M (option string) :=
  let current_file_id := ref_telegram_file_id file_ref in
  file_info <- bot_get_file env current_file_id ;;
  match file_info with
  | GetFileOk _ =>
      Database.update_file_reference env (ref_reference_id file_ref)
        {| upd_telegram_file_id := Some current_file_id;
           upd_is_active := None |} ;;;
      ret (Some current_file_id)
  | GetFileRaises (TelegramError _ _) =>
      logger WARNING ("File ID expired for reference: "
                      ++ ref_reference_id file_ref) ;;;
      new_file_id <- find_file_in_channel
                       (md_channel_id (ref_metadata file_ref))
                       (ref_filename file_ref)
                       (ref_file_type file_ref) ;;
      if Py.truthy new_file_id then
        Database.update_file_reference env (ref_reference_id file_ref)
          {| upd_telegram_file_id := new_file_id;
             upd_is_active := None |} ;;;
        ret new_file_id
      else
        logger ERROR ("Could not refresh file ID for: "
                      ++ ref_reference_id file_ref) ;;;
        ret None
  | GetFileRaises (OtherException msg) =>
      logger ERROR ("Error refreshing file ID: " ++ msg) ;;;
      ret None
  end.

(** [get_fresh_file_id]. *)
Definition get_fresh_file_id (reference_id : string) : M (option string) :=
  file_ref <- Database.get_file_reference reference_id ;;
  match file_ref with
  | None =>
      logger ERROR ("File reference not found: " ++ reference_id) ;;;
      ret None
  | Some file_ref =>
      match ref_last_refreshed file_ref with
      | Some last_refreshed =>
          now <- utcnow env ;;
          let time_diff := now - last_refreshed in
          if time_diff <? file_refresh_interval * 3600 * second
          then ret (Some (ref_telegram_file_id file_ref))
          else refresh_file_id file_ref
      | None => refresh_file_id file_ref
      end
  end.

(** [get_file_stream]: the stream's bytes, the stored filename, and
    [len(content)]. *)
Definition get_file_stream (reference_id : string)
  : M (option (list byte * option string * Z)) :=
  file_id <- get_fresh_file_id reference_id ;;
  match file_id with
  | None => ret None
  | Some handle =>
      if negb (Py.truthy file_id) then ret None else
      file_info <- bot_get_file env handle ;;
      match file_info with
      | GetFileRaises e =>
          logger ERROR ("Error getting file stream: " ++ exn_str e) ;;;
          ret None
      | GetFileOk file_path =>
          response <- http_get env file_path ;;
          match response with
          | HttpRaises e =>
              logger ERROR ("Error getting file stream: " ++ exn_str e) ;;;
              ret None
          | HttpResponse status content =>
              if status =? 200 then
                file_ref <- Database.get_file_reference reference_id ;;
                match file_ref with
                | Some file_ref =>
                    ret (Some (content, ref_filename file_ref,
                               Z.of_nat (List.length content)))
                | None =>
                    logger ERROR
                      ("Error getting file stream: "
                       ++ "'NoneType' object has no attribute 'get'") ;;;
                    ret None
                end
              else ret None
          end
      end
  end.

(** The [if]/[elif] chain of [process_channel_media] that picks
    [file_info] and [file_type] from the message. *)
Definition classify_media (msg : Message)
  : option FileInfo * option string :=
  match document msg with
  | Some doc =>
      (Some doc,
       Some (match mime_type doc with
             | Some mime =>
                 if Py.truthy (Some mime) then
                   if Py.contains "video" mime then "video"
                   else if Py.contains "pdf" mime then "pdf"
                   else "document"
                 else "document"
             | None => "document"
             end))
  | None =>
      match video msg with
      | Some vid => (Some vid, Some "video")
      | None => (None, None)
      end
  end.

(** [process_channel_media].  The library's [Document] and [Video]
    classes define [file_name], so [getattr]'s default is not used. *)
Definition process_channel_media (update : Update) : M unit :=
  match message update with
  | None => ret tt
  | Some msg =>
      let c := chat msg in
      if negb (existsb (String.eqb (chat_type c))
                 ["group"; "supergroup"; "channel"])
      then ret tt
      else
        mapping <- Database.get_channel_mapping (Py.str_int (chat_id c)) ;;
        match mapping with
        | None => ret tt
        | Some mapping =>
            match classify_media msg with
            | (Some file_info, Some file_type) =>
                let metadata :=
                  {| md_channel_id := Some (Py.str_int (chat_id c));
                     md_channel_name := chat_title c;
                     md_message_id := Some (message_id msg);
                     md_mime_type := mime_type file_info |} in
                reference_id <-
                  create_file_reference (file_id file_info) file_type
                    (file_name file_info) (file_size file_info)
                    (Some (map_course_id mapping)) (Some metadata) ;;
                let media_data :=
                  {| media_reference_id := reference_id;
                     media_course_id := map_course_id mapping;
                     media_file_type := file_type;
                     media_filename := file_name file_info;
                     media_file_size := file_size file_info;
                     media_telegram_file_id := file_id file_info;
                     media_channel_id := Py.str_int (chat_id c);
                     media_message_id := message_id msg;
                     media_order := 0;
                     media_is_active := true;
                     (* the two stamps are set by [Database.create_media_file] *)
                     media_created_at := 0;
                     media_updated_at := 0 |} in
                Database.create_media_file env media_data ;;;
                logger INFO ("Processed media file: " ++ reference_id)
            | _ => ret tt
            end
        end
  end.

(** [for file_ref in expired_refs: ...]. *)
Fixpoint for_each {A} (body : A -> M unit) (l : list A) : M unit :=
  match l with
  | [] => ret tt
  | x :: rest => body x ;;; for_each body rest
  end.

(** The body of the sweeper's [for] loop. *)
Definition refresh_step (file_ref : FileReference) : M unit :=
  logger INFO ("Refreshing file: " ++ ref_reference_id file_ref) ;;;
  refresh_file_id file_ref ;;;
  sleep 1.

(** One iteration of the [while True] of [start_file_refresh_task].
    Nothing in the body raises here, so the [except] branch (log and
    sleep 300) is never taken. *)
Definition refresh_cycle : M unit :=
  expired_refs <-
    Database.get_expired_file_references env file_refresh_interval ;;
  for_each refresh_step expired_refs ;;;
  (match expired_refs with
   | [] => ret tt
   | _ :: _ =>
       logger INFO ("Refreshed "
                    ++ Py.str_int (Z.of_nat (List.length expired_refs))
                    ++ " file references")
   end) ;;;
  sleep 3600.

Fixpoint refresh_cycles (cycles : nat) : M unit :=
  match cycles with
  | O => ret tt
  | S n => refresh_cycle ;;; refresh_cycles n
  end.

(** [start_file_refresh_task], cut after [cycles] iterations of the
    loop (the loop itself never exits). *)
Definition start_file_refresh_task (cycles : nat) : M unit :=
  logger INFO "Starting file refresh background task" ;;;
  refresh_cycles cycles.

(** [delete_file_reference]. *)
Definition delete_file_reference (reference_id : string) : M bool :=
  Database.update_file_reference env reference_id
    {| upd_telegram_file_id := None; upd_is_active := Some false |}.

(** [get_storage_stats]. *)
Definition get_storage_stats : M StorageStats :=
  total <- Database.get_total_media_files_count ;;
  videos <- Database.get_course_media_files "" (Some "video") ;;
  pdfs <- Database.get_course_media_files "" (Some "pdf") ;;
  let video_count := Z.of_nat (List.length videos) in
  let pdf_count := Z.of_nat (List.length pdfs) in
  ret {| total_files := total;
         video_files := video_count;
         pdf_files := pdf_count;
         document_files := total - video_count - pdf_count |}.

(** [get_file_url]. *)
Definition get_file_url (reference_id : string) : M (option string) :=
  file_id <- get_fresh_file_id reference_id ;;
  match file_id with
  | None => ret None
  | Some handle =>
      if negb (Py.truthy file_id) then ret None else
      file_info <- bot_get_file env handle ;;
      match file_info with
      | GetFileOk file_path => ret (Some file_path)
      | GetFileRaises e =>
          logger ERROR ("Error getting file URL: " ++ exn_str e) ;;;
          ret None
      end
  end.

(** [validate_file_access]. *)
Definition validate_file_access (reference_id : string) : M bool :=
  file_id <- get_fresh_file_id reference_id ;;
  match file_id with
  | None => ret false
  | Some handle =>
      if negb (Py.truthy file_id) then ret false else
      file_info <- bot_get_file env handle ;;
      match file_info with
      | GetFileOk _ => ret true
      | GetFileRaises _ => ret false
      end
  end.

(** [get_file_metadata]. *)
Definition get_file_metadata (reference_id : string) : M (option FileMetadata) :=
  file_ref <- Database.get_file_reference reference_id ;;
  match file_ref with
  | None => ret None
  | Some file_ref =>
      ret (Some {| meta_reference_id := ref_reference_id file_ref;
                   meta_filename := ref_filename file_ref;
                   meta_file_type := ref_file_type file_ref;
                   meta_file_size := ref_file_size file_ref;
                   meta_created_at := ref_created_at file_ref;
                   meta_last_refreshed := ref_last_refreshed file_ref;
                   meta_metadata := ref_metadata file_ref |})
  end.

(** [get_media_files_by_course]. *)
Definition get_media_files_by_course (course_id : string)
    (file_type : option string) : M (list MediaFile) :=
  Database.get_course_media_files course_id file_type.

End StorageManager.
End StorageManager.

(* ------------------------------------------------------------------ *)
(** ** Users, courses, enrolments and the bot's side of the world

    The remaining collections of [database.py] and the bot of
    [telegram_bot.py] live in a [Campus]: the [World] above plus the
    [users], [courses], [user_courses] and [user_activities] collections,
    the count of identifiers the store has handed out, and the outbox of
    what the bot asked of Telegram.  An [_id] is the string of the
    ObjectId; the identifiers passed to the store are ones it handed out,
    so [ObjectId(...)] does not raise.  Sending a message does not raise.
    Writes to these four collections show in the collections and are not
    added to the trace. *)

(** A document of the [users] collection. *)
Record User := {
  user_id : string;
  user_telegram_id : string;
  user_username : option string;
  user_first_name : string;
  user_last_name : option string;
  user_chat_id : string;
  user_created_at : Z;
  user_updated_at : Z;
  user_is_banned : bool;
  user_banned_at : option Z;
  user_device_reset_count : Z;
  user_last_activity : Z;
  user_device_fingerprint : option string;
  user_device_info : option string
}.

(** The [user_data] dictionary handed to [create_user]. *)
Record UserData := {
  data_telegram_id : string;
  data_username : option string;
  data_first_name : string;
  data_last_name : option string;
  data_chat_id : string
}.

(** The [update_data] dictionary handed to [update_user], restricted to
    the keys the callers use; an absent key is [None]. *)
Record UserUpdate := {
  set_is_banned : option bool;
  set_banned_at : option (option Z);
  set_device_fingerprint : option (option string);
  set_device_info : option (option string);
  set_device_reset_count : option Z;
  set_last_activity : option Z
}.

(** A document of the [courses] collection. *)
Record Course := {
  course_oid : string;
  course_course_id : string;
  course_app_id : string;
  course_name : string;
  course_is_active : bool
}.

(** A document of the [user_courses] collection. *)
Record UserCourse := {
  uc_user_id : string;
  uc_course_id : string;
  uc_assigned_at : Z;
  uc_is_active : bool
}.

(** A document of the [user_activities] collection. *)
Record UserActivity := {
  act_user_id : string;
  act_activity_type : string;
  act_details : list (string * Z);
  act_timestamp : Z
}.

(** [telegram.User] as the commands read it. *)
Record TelegramUser := {
  tg_id : Z;
  tg_username : option string;
  tg_first_name : string;
  tg_last_name : option string
}.

(** A command update: [effective_user] and [effective_chat.id]. *)
Record Command := {
  effective_user : TelegramUser;
  effective_chat_id : Z
}.

(** Outcome of [bot.get_chat(channel_id)]: the chat's title, or the
    exception raised. *)
Inductive GetChatResult :=
| GetChatOk (title : option string)
| GetChatRaises (e : Exn).

(** What the bot asked of Telegram. *)
Inductive BotAction :=
| GetChat (channel_id : string)
| ReplyText (text : string)
| SendMessage (chat_id : Z) (text : string).

(** The dictionary returned by [sync_channel_content]. *)
Record SyncResult := {
  sync_success : bool;
  sync_message : option string;
  sync_files_processed : option Z;
  sync_error : option string
}.

Record BotEnv := {
  base : Env;
  object_id_at : nat -> string;
  bot_get_chat_at : nat -> string -> GetChatResult;
  webapp_url : string
}.

Record Campus := {
  world : World;
  users : list User;
  courses : list Course;
  user_courses : list UserCourse;
  user_activities : list UserActivity;
  object_ids_drawn : nat;
  outbox : list BotAction
}.

Definition set_world (w : World) (c : Campus) : Campus :=
  {| world := w; users := users c; courses := courses c;
     user_courses := user_courses c; user_activities := user_activities c;
     object_ids_drawn := object_ids_drawn c; outbox := outbox c |}.

Definition set_users (l : list User) (c : Campus) : Campus :=
  {| world := world c; users := l; courses := courses c;
     user_courses := user_courses c; user_activities := user_activities c;
     object_ids_drawn := object_ids_drawn c; outbox := outbox c |}.

Definition set_user_courses (l : list UserCourse) (c : Campus) : Campus :=
  {| world := world c; users := users c; courses := courses c;
     user_courses := l; user_activities := user_activities c;
     object_ids_drawn := object_ids_drawn c; outbox := outbox c |}.

Definition set_user_activities (l : list UserActivity) (c : Campus) : Campus :=
  {| world := world c; users := users c; courses := courses c;
     user_courses := user_courses c; user_activities := l;
     object_ids_drawn := object_ids_drawn c; outbox := outbox c |}.

Definition set_object_ids_drawn (n : nat) (c : Campus) : Campus :=
  {| world := world c; users := users c; courses := courses c;
     user_courses := user_courses c; user_activities := user_activities c;
     object_ids_drawn := n; outbox := outbox c |}.

Definition set_outbox (l : list BotAction) (c : Campus) : Campus :=
  {| world := world c; users := users c; courses := courses c;
     user_courses := user_courses c; user_activities := user_activities c;
     object_ids_drawn := object_ids_drawn c; outbox := l |}.

(** State-passing computations over the campus. *)
Definition C (A : Type) : Type := Campus -> A * Campus.

Definition cret {A} (a : A) : C A := fun c => (a, c).

Definition cbind {A B} (m : C A) (k : A -> C B) : C B :=
  fun c => let (a, c1) := m c in k a c1.

(** Run a computation of the file-reference world inside the campus. *)
Definition lift {A} (m : M A) : C A :=
  fun c => let (a, w) := m (world c) in (a, set_world w c).

Declare Scope c_scope.
Delimit Scope c_scope with C.
Notation "x <- c ;; k" := (cbind c (fun x => k))
  (at level 61, c at next level, right associativity) : c_scope.
Notation "c ;;; k" := (cbind c (fun _ => k))
  (at level 61, right associativity) : c_scope.

(** Append one action to the outbox. *)
Definition ask (a : BotAction) : C unit :=
  fun c => (tt, set_outbox (outbox c ++ [a]) c).

(** The line feed of the message texts. *)
Definition nl : string := String (ascii_of_nat 10) "".

(** [delete_one]: remove the first document matching the filter. *)
Fixpoint delete_one {A} (p : A -> bool) (l : list A) : list A :=
  match l with
  | [] => []
  | x :: rest => if p x then rest else x :: delete_one p rest
  end.

(** The effect of [{"$set": update_data}] on a user, [update_data]
    carrying the keys of [u] and [updated_at = now]; datetimes are stored
    at the millisecond. *)
Definition apply_user_update (u : UserUpdate) (now : Z) (x : User) : User :=
  {| user_id := user_id x;
     user_telegram_id := user_telegram_id x;
     user_username := user_username x;
     user_first_name := user_first_name x;
     user_last_name := user_last_name x;
     user_chat_id := user_chat_id x;
     user_created_at := user_created_at x;
     user_updated_at := bson_datetime now;
     user_is_banned :=
       match set_is_banned u with Some b => b | None => user_is_banned x end;
     user_banned_at :=
       match set_banned_at u with
       | Some t => option_map bson_datetime t
       | None => user_banned_at x
       end;
     user_device_reset_count :=
       match set_device_reset_count u with
       | Some n => n
       | None => user_device_reset_count x
       end;
     user_last_activity :=
       match set_last_activity u with
       | Some t => bson_datetime t
       | None => user_last_activity x
       end;
     user_device_fingerprint :=
       match set_device_fingerprint u with
       | Some f => f
       | None => user_device_fingerprint x
       end;
     user_device_info :=
       match set_device_info u with
       | Some i => i
       | None => user_device_info x
       end |}.

Definition User_eq_dec : forall x y : User, {x = y} + {x <> y}.
Proof. repeat decide equality. Defined.

(** [database.py]: users, enrolments and activities. *)
Module Accounts.
Section Accounts.
Variable benv : BotEnv.
Local Open Scope c_scope.

(** The [_id] the store gives the next inserted document. *)
Definition new_object_id : C string :=
  fun c => (object_id_at benv (object_ids_drawn c),
            set_object_ids_drawn (S (object_ids_drawn c)) c).

(** [create_user]. *)
Definition create_user (user_data : UserData) : C string :=
  created <- lift (utcnow (base benv)) ;;
  updated <- lift (utcnow (base benv)) ;;
  activity <- lift (utcnow (base benv)) ;;
  inserted_id <- new_object_id ;;
  let doc :=
    {| user_id := inserted_id;
       user_telegram_id := data_telegram_id user_data;
       user_username := data_username user_data;
       user_first_name := data_first_name user_data;
       user_last_name := data_last_name user_data;
       user_chat_id := data_chat_id user_data;
       user_created_at := bson_datetime created;
       user_updated_at := bson_datetime updated;
       user_is_banned := false;
       user_banned_at := None;
       user_device_reset_count := 0;
       user_last_activity := bson_datetime activity;
       user_device_fingerprint := None;
       user_device_info := None |} in
  (fun c => (tt, set_users (users c ++ [doc]) c)) ;;;
  cret inserted_id.

(** [get_user_by_telegram_id]. *)
Definition get_user_by_telegram_id (telegram_id : string) : C (option User) :=
  fun c =>
    (find_one (fun x => String.eqb (user_telegram_id x) telegram_id) (users c),
     c).

(** [get_user_by_id]. *)
Definition get_user_by_id (id : string) : C (option User) :=
  fun c => (find_one (fun x => String.eqb (user_id x) id) (users c), c).

(** [update_user]: always adds [updated_at = utcnow()] to the [$set];
    returns [modified_count > 0]. *)
Definition update_user (id : string) (update_data : UserUpdate) : C bool :=
  now <- lift (utcnow (base benv)) ;;
  let has_id (x : User) := String.eqb (user_id x) id in
  modified <-
    (fun c =>
       (match find_one has_id (users c) with
        | Some x =>
            if User_eq_dec x (apply_user_update update_data now x)
            then false else true
        | None => false
        end,
        set_users
          (update_one has_id (apply_user_update update_data now) (users c)) c)) ;;
  cret modified.

(** [reset_user_device]. *)
Definition reset_user_device (id : string) : C bool :=
  user <- get_user_by_id id ;;
  match user with
  | None => cret false
  | Some user =>
      update_user id
        {| set_is_banned := None;
           set_banned_at := None;
           set_device_fingerprint := Some None;
           set_device_info := Some None;
           set_device_reset_count := Some (user_device_reset_count user + 1);
           set_last_activity := None |}
  end.

(** [log_user_activity]: stamps [timestamp], inserts. *)
Definition log_user_activity (id activity_type : string)
    (details : list (string * Z)) : C string :=
  now <- lift (utcnow (base benv)) ;;
  inserted_id <- new_object_id ;;
  let doc :=
    {| act_user_id := id;
       act_activity_type := activity_type;
       act_details := details;
       act_timestamp := bson_datetime now |} in
  (fun c => (tt, set_user_activities (user_activities c ++ [doc]) c)) ;;;
  cret inserted_id.

(** The pair of the unique index of [user_courses]. *)
Definition same_enrolment (user course : string) (uc : UserCourse) : bool :=
  String.eqb (uc_user_id uc) user && String.eqb (uc_course_id uc) course.

(** [assign_course_to_user]: with the unique index on
    [(user_id, course_id)] in place the insert raises on a pair already
    present, and the bare [except] turns that into [False]. *)
Definition assign_course_to_user (user course : string) : C bool :=
  now <- lift (utcnow (base benv)) ;;
  fun c =>
    if existsb (same_enrolment user course) (user_courses c)
    then (false, c)
    else
      (true,
       set_user_courses
         (user_courses c
          ++ [{| uc_user_id := user; uc_course_id := course;
                 uc_assigned_at := bson_datetime now;
                 uc_is_active := true |}]) c).

(** [remove_course_from_user]: [delete_one]; returns
    [deleted_count > 0]. *)
Definition remove_course_from_user (user course : string) : C bool :=
  fun c =>
    (existsb (same_enrolment user course) (user_courses c),
     set_user_courses
       (delete_one (same_enrolment user course) (user_courses c)) c).

(** [is_user_enrolled_in_course]. *)
Definition is_user_enrolled_in_course (user course : string) : C bool :=
  fun c =>
    (match find_one
             (fun uc => same_enrolment user course uc && uc_is_active uc)
             (user_courses c) with
     | Some _ => true
     | None => false
     end, c).

(** [get_user_courses]: the aggregation pipeline, stage by stage:
    [$match] on the user's active enrolments, [$lookup] of the courses
    with the same [course_id], [$unwind], [$match] on active courses. *)
Definition get_user_courses (user : string) : C (list Course) :=
  fun c =>
    let matched :=
      filter (fun uc => String.eqb (uc_user_id uc) user && uc_is_active uc)
        (user_courses c) in
    let unwound :=
      flat_map
        (fun uc =>
           filter (fun k => String.eqb (course_course_id k) (uc_course_id uc))
             (courses c))
        matched in
    (filter course_is_active unwound, c).

End Accounts.
End Accounts.

(** [storage_manager.py]: [sync_channel_content]. *)
Module ChannelSync.
Section ChannelSync.
Variable benv : BotEnv.
Local Open Scope c_scope.

(** [await self.bot.get_chat(channel_id)]. *)
Definition bot_get_chat (channel_id : string) : C GetChatResult :=
  fun c =>
    (bot_get_chat_at benv (upstream_calls (world c)) channel_id,
     set_outbox (outbox c ++ [GetChat channel_id])
       (set_world
          (set_upstream_calls (S (upstream_calls (world c))) (world c)) c)).

(** [sync_channel_content].  Nothing in the body raises past the inner
    handler here, so the outer [except] (the [success: False] answer) is
    never taken. *)
Definition sync_channel_content (channel_id course_id : string) : C SyncResult :=
  mapping <- lift (Database.get_channel_mapping channel_id) ;;
  (match mapping with
   | None =>
       lift (Database.create_channel_mapping (base benv)
               {| map_channel_id := channel_id;
                  map_course_id := course_id;
                  map_is_active := true;
                  (* the two stamps are set by [create_channel_mapping] *)
                  map_created_at := 0;
                  map_last_synced := 0 |})
   | Some _ => cret tt
   end) ;;;
  chat <- bot_get_chat channel_id ;;
  (match chat with
   | GetChatOk title =>
       lift (logger INFO ("Syncing channel: " ++ Py.fmt title))
   | GetChatRaises _ =>
       lift (logger WARNING ("Could not get channel info for: " ++ channel_id))
   end) ;;;
  lift (Database.update_channel_sync (base benv) channel_id) ;;;
  cret {| sync_success := true;
          sync_message :=
            Some ("Channel " ++ channel_id ++ " synced successfully");
          sync_files_processed := Some 0;
          sync_error := None |}.

End ChannelSync.
End ChannelSync.

(** [telegram_bot.py]. *)
Module TelegramBot.
Section TelegramBot.
Variable benv : BotEnv.
Local Open Scope c_scope.

(** [update.message.reply_text(text)]. *)
Definition reply_text (text : string) : C unit := ask (ReplyText text).

(** [context.bot.send_message(chat_id=..., text=...)]. *)
Definition send_message (chat_id : Z) (text : string) : C unit :=
  ask (SendMessage chat_id text).

Definition welcome_message (first_name miniapp_url : string) : string :=
  "🎓 Welcome to EduLearn, " ++ first_name ++ "!" ++ nl ++ nl
  ++ "📱 Access your educational content through our miniapp:" ++ nl
  ++ "🔗 [Open Miniapp](" ++ miniapp_url ++ ")" ++ nl ++ nl
  ++ "📚 Features:" ++ nl
  ++ "• Browse educational apps" ++ nl
  ++ "• Access your assigned courses" ++ nl
  ++ "• Watch videos and read PDFs" ++ nl
  ++ "• Track your progress" ++ nl ++ nl
  ++ "💡 Use /help for more commands".

(** [start_command]. *)
Definition start_command (update : Command) : C unit :=
  let user := effective_user update in
  let chat_id := effective_chat_id update in
  existing_user <-
    Accounts.get_user_by_telegram_id (Py.str_int (tg_id user)) ;;
  (match existing_user with
   | None =>
       new_id <-
         Accounts.create_user benv
           {| data_telegram_id := Py.str_int (tg_id user);
              data_username := tg_username user;
              data_first_name := tg_first_name user;
              data_last_name := tg_last_name user;
              data_chat_id := Py.str_int chat_id |} ;;
       lift (logger INFO ("New user created: " ++ new_id))
   | Some existing_user =>
       now <- lift (utcnow (base benv)) ;;
       Accounts.update_user benv (user_id existing_user)
         {| set_is_banned := None;
            set_banned_at := None;
            set_device_fingerprint := None;
            set_device_info := None;
            set_device_reset_count := None;
            set_last_activity := Some now |} ;;;
       cret tt
   end) ;;;
  let miniapp_url :=
    webapp_url benv ++ "/miniapp?user_id=" ++ Py.str_int (tg_id user) in
  send_message chat_id (welcome_message (tg_first_name user) miniapp_url).

Definition user_not_found_message : string :=
  "❌ User not found. Please use /start first.".

Definition limit_reached_message : string :=
  "⚠️ **Device Reset Limit Reached**" ++ nl ++ nl
  ++ "You have already used your 2 device resets." ++ nl
  ++ "Contact an administrator for additional resets.".

Definition reset_successful_message (new_count remaining : Z) : string :=
  "✅ **Device Reset Successful**" ++ nl ++ nl
  ++ "🔄 Reset #" ++ Py.str_int new_count ++ " completed" ++ nl
  ++ "📱 You can now login from a new device" ++ nl
  ++ "⏳ Remaining resets: " ++ Py.str_int remaining.

Definition reset_failed_message : string :=
  "❌ Failed to reset device. Please try again later.".

(** [reset_device_command]. *)
Definition reset_device_command (update : Command) : C unit :=
  let user := effective_user update in
  user_data <- Accounts.get_user_by_telegram_id (Py.str_int (tg_id user)) ;;
  match user_data with
  | None => reply_text user_not_found_message
  | Some user_data =>
      let reset_count := user_device_reset_count user_data in
      if 2 <=? reset_count then reply_text limit_reached_message
      else
        success <- Accounts.reset_user_device benv (user_id user_data) ;;
        if success then
          let new_count := reset_count + 1 in
          let remaining := 2 - new_count in
          Accounts.log_user_activity benv (user_id user_data) "device_reset"
            [("reset_count", new_count)] ;;;
          reply_text (reset_successful_message new_count remaining)
        else reply_text reset_failed_message
  end.

End TelegramBot.
End TelegramBot.

(* ------------------------------------------------------------------ *)
(** ** Vocabulary of the statements *)

(** A reference whose [last_refreshed] is replaced and nothing else. *)
Definition refreshed_at (now : Z) (r : FileReference) : FileReference :=
  {| ref_reference_id := ref_reference_id r;
     ref_telegram_file_id := ref_telegram_file_id r;
     ref_file_type := ref_file_type r;
     ref_filename := ref_filename r;
     ref_file_size := ref_file_size r;
     ref_course_id := ref_course_id r;
     ref_metadata := ref_metadata r;
     ref_is_active := ref_is_active r;
     ref_created_at := ref_created_at r;
     ref_last_refreshed := Some now |}.

(** A reference with its [is_active] flag replaced by [flag r]. *)
Definition with_active (flag : FileReference -> bool) (r : FileReference)
  : FileReference :=
  {| ref_reference_id := ref_reference_id r;
     ref_telegram_file_id := ref_telegram_file_id r;
     ref_file_type := ref_file_type r;
     ref_filename := ref_filename r;
     ref_file_size := ref_file_size r;
     ref_course_id := ref_course_id r;
     ref_metadata := ref_metadata r;
     ref_is_active := flag r;
     ref_created_at := ref_created_at r;
     ref_last_refreshed := ref_last_refreshed r |}.

(** What Tier 1 writes when the probe succeeds. *)
Definition revalidate (r : FileReference) : RefUpdate :=
  {| upd_telegram_file_id := Some (ref_telegram_file_id r);
     upd_is_active := None |}.

(** The world after a refresh whose probe succeeded. *)
Definition after_probe_ok (env : Env) (r : FileReference) (w : World)
  : World :=
  set_trace
    (trace w ++ [BotGetFile (ref_telegram_file_id r);
                 DbUpdate "file_references" (ref_reference_id r)])
    (set_file_references
       (update_one (has_reference_id (ref_reference_id r))
          (apply_update (revalidate r) (utcnow_at env (clock_reads w)))
          (file_references w))
       (set_clock_reads (S (clock_reads w))
          (set_upstream_calls (S (upstream_calls w)) w))).

(** The events of a refresh whose probe raised [e]. *)
Definition probe_failure_events (r : FileReference) (e : Exn) : list Event :=
  BotGetFile (ref_telegram_file_id r)
  :: match e with
     | TelegramError _ _ =>
         [Log WARNING ("File ID expired for reference: "
                       ++ ref_reference_id r);
          Log INFO ("Searching for file " ++ Py.fmt (ref_filename r)
                    ++ " in channel "
                    ++ Py.fmt (md_channel_id (ref_metadata r)));
          Log ERROR ("Could not refresh file ID for: "
                     ++ ref_reference_id r)]
     | OtherException msg =>
         [Log ERROR ("Error refreshing file ID: " ++ msg)]
     end.


(** The references the sweeper's query selects at clock reading [now]. *)
Definition expired_at (now : Z) (l : list FileReference) : list FileReference :=
  filter (Database.older_than (now - StorageManager.file_refresh_interval * hour)) l.

(** The media files of course [course_id] and type [file_type]. *)
Definition media_of (course_id file_type : string) (m : MediaFile) : bool :=
  String.eqb (media_course_id m) course_id
  && String.eqb (media_file_type m) file_type.

Definition count_media (course_id file_type : string) (l : list MediaFile) : Z :=
  Z.of_nat (List.length (filter (media_of course_id file_type) l)).

(** The lookup [get_channel_mapping(str(chat.id))]. *)
Definition mapping_of (msg : Message) (w : World) : option ChannelMapping :=
  find_one
    (fun m => String.eqb (map_channel_id m) (Py.str_int (chat_id (chat msg))))
    (channel_mappings w).

(** The classification rule of the ingestion, case by case: which payload
    of a message is registered, and under which file type. *)
Inductive payload_kind (msg : Message) : FileInfo -> string -> Prop :=
| kind_pdf_document doc mime :
    document msg = Some doc ->
    mime_type doc = Some mime ->
    Py.contains "pdf" mime = true ->
    Py.contains "video" mime = false ->
    payload_kind msg doc "pdf"
| kind_video_document doc mime :
    document msg = Some doc ->
    mime_type doc = Some mime ->
    Py.contains "video" mime = true ->
    payload_kind msg doc "video"
| kind_video_payload vid :
    document msg = None ->
    video msg = Some vid ->
    payload_kind msg vid "video"
| kind_other_document doc mime :
    document msg = Some doc ->
    mime_type doc = Some mime ->
    Py.contains "pdf" mime = false ->
    Py.contains "video" mime = false ->
    payload_kind msg doc "document"
| kind_untyped_document doc :
    document msg = Some doc ->
    mime_type doc = None ->
    payload_kind msg doc "document".

(** The world after a resolution that found nothing under the identifier. *)
Definition after_not_found (reference_id : string) (w : World) : World :=
  set_trace
    (trace w ++ [Log ERROR ("File reference not found: " ++ reference_id)]) w.

(** The fields of a reference that no update of a handle or of a
    timestamp touches. *)
Definition frozen (r : FileReference)
  : string * string * option string * option Z * option string
    * Metadata * bool * Z :=
  (ref_reference_id r, ref_file_type r, ref_filename r, ref_file_size r,
   ref_course_id r, ref_metadata r, ref_is_active r, ref_created_at r).

(** Identifier and handle of a reference. *)
Definition key (r : FileReference) : string * string :=
  (ref_reference_id r, ref_telegram_file_id r).

(** Order on [last_refreshed] values, an absent one being the least. *)
Definition stamp_le (a b : option Z) : Prop :=
  match a, b with
  | Some x, Some y => x <= y
  | None, _ => True
  | Some _, None => False
  end.

(** The clock never goes back. *)
Definition monotone_clock (env : Env) : Prop :=
  forall n, utcnow_at env n <= utcnow_at env (S n).

(** No stored [last_refreshed] is later than the next clock reading. *)
Definition stamps_in_past (env : Env) (w : World) : Prop :=
  forall r t,
    In r (file_references w) ->
    ref_last_refreshed r = Some t ->
    t <= utcnow_at env (clock_reads w).

(** Two worlds hold the same references up to handles and refresh
    stamps, the same media files and the same channel mappings. *)
Definition same_catalog (w w' : World) : Prop :=
  map frozen (file_references w') = map frozen (file_references w)
  /\ media_files w' = media_files w
  /\ channel_mappings w' = channel_mappings w.

(** Reference by reference, no [last_refreshed] of [l'] is earlier than
    in [l]. *)
Definition never_earlier (l l' : list FileReference) : Prop :=
  Forall2 (fun r r' => stamp_le (ref_last_refreshed r) (ref_last_refreshed r'))
    l l'.

(** No stamp went back from [w] to [w'], and none in [w'] is ahead of
    the clock. *)
Definition orderly (env : Env) (w w' : World) : Prop :=
  never_earlier (file_references w) (file_references w')
  /\ stamps_in_past env w'.

(** The identifier minted from world [w]. *)
Definition minted_id (env : Env) (w : World) : string :=
  fst (StorageManager.generate_reference_id env w).

(** The reference and the media file that the ingestion of payload
    [info] of message [msg], classified as [kind], adds to world [w] for
    the course of [mapping]. *)
Definition ingested_reference (env : Env) (w : World) (msg : Message)
    (mapping : ChannelMapping) (info : FileInfo) (kind : string)
  : FileReference :=
  {| ref_reference_id := minted_id env w;
     ref_telegram_file_id := file_id info;
     ref_file_type := kind;
     ref_filename := file_name info;
     ref_file_size := file_size info;
     ref_course_id := Some (map_course_id mapping);
     ref_metadata :=
       {| md_channel_id := Some (Py.str_int (chat_id (chat msg)));
          md_channel_name := chat_title (chat msg);
          md_message_id := Some (message_id msg);
          md_mime_type := mime_type info |};
     ref_is_active := true;
     ref_created_at := bson_datetime (utcnow_at env (S (clock_reads w)));
     ref_last_refreshed :=
       Some (bson_datetime (utcnow_at env (S (S (clock_reads w))))) |}.

Definition ingested_media (env : Env) (w : World) (msg : Message)
    (mapping : ChannelMapping) (info : FileInfo) (kind : string)
  : MediaFile :=
  {| media_reference_id := minted_id env w;
     media_course_id := map_course_id mapping;
     media_file_type := kind;
     media_filename := file_name info;
     media_file_size := file_size info;
     media_telegram_file_id := file_id info;
     media_channel_id := Py.str_int (chat_id (chat msg));
     media_message_id := message_id msg;
     media_order := 0;
     media_is_active := true;
     media_created_at :=
       bson_datetime (utcnow_at env (S (S (S (clock_reads w)))));
     media_updated_at :=
       bson_datetime (utcnow_at env (S (S (S (S (clock_reads w)))))) |}.

(** The lookup [get_channel_mapping(channel_id)] in a world. *)
Definition mapping_for (channel_id : string) (w : World) : option ChannelMapping :=
  find_one (fun m => String.eqb (map_channel_id m) channel_id)
    (channel_mappings w).

(** The [(user_id, course_id)] pairs of the enrolments, in order. *)
Definition enrolment_pairs (c : Campus) : list (string * string) :=
  map (fun uc => (uc_user_id uc, uc_course_id uc)) (user_courses c).

(** The lookup of a user by Telegram identifier. *)
Definition user_of (telegram_id : Z) (c : Campus) : option User :=
  find_one (fun x => String.eqb (user_telegram_id x) (Py.str_int telegram_id))
    (users c).

(** The fields of a user that [/start] does not touch on an existing
    account: all but [updated_at] and [last_activity]. *)
Definition account (x : User)
  : string * string * option string * string * option string * string * Z
    * bool * option Z * Z * option string * option string :=
  (user_id x, user_telegram_id x, user_username x, user_first_name x,
   user_last_name x, user_chat_id x, user_created_at x, user_is_banned x,
   user_banned_at x, user_device_reset_count x, user_device_fingerprint x,
   user_device_info x).

(** A user after one device reset stamped [now]. *)
Definition after_device_reset (now : Z) (x : User) : User :=
  {| user_id := user_id x;
     user_telegram_id := user_telegram_id x;
     user_username := user_username x;
     user_first_name := user_first_name x;
     user_last_name := user_last_name x;
     user_chat_id := user_chat_id x;
     user_created_at := user_created_at x;
     user_updated_at := now;
     user_is_banned := user_is_banned x;
     user_banned_at := user_banned_at x;
     user_device_reset_count := user_device_reset_count x + 1;
     user_last_activity := user_last_activity x;
     user_device_fingerprint := None;
     user_device_info := None |}.

(** Every stored [last_refreshed] is a whole number of milliseconds, as
    the store keeps it. *)
Definition whole_milliseconds (w : World) : Prop :=
  forall r t,
    In r (file_references w) ->
    ref_last_refreshed r = Some t ->
    bson_datetime t = t.

(** From [w] to [w'] no stamp went back, and [w'] again holds whole
    milliseconds, none ahead of the clock. *)
Definition settled (env : Env) (w w' : World) : Prop :=
  orderly env w w' /\ whole_milliseconds w'.

(* ------------------------------------------------------------------ *)
(** ** Concrete stores and environments *)

Module Examples.

Definition lecture_id : string := "ref_1700000000_00aa11bb22cc33dd".

(** A PDF registered at time 0 with handle [FILE_A]. *)
Definition lecture : FileReference :=
  {| ref_reference_id := lecture_id;
     ref_telegram_file_id := "FILE_A";
     ref_file_type := "pdf";
     ref_filename := Some "lecture.pdf";
     ref_file_size := Some 1000;
     ref_course_id := Some "course_1";
     ref_metadata :=
       {| md_channel_id := Some "-100123";
          md_channel_name := Some "Algebra";
          md_message_id := Some 7;
          md_mime_type := Some "application/pdf" |};
     ref_is_active := true;
     ref_created_at := 0;
     ref_last_refreshed := Some 0 |}.

(** The same reference after a soft delete that kept its timestamp. *)
Definition deleted_lecture : FileReference :=
  {| ref_reference_id := lecture_id;
     ref_telegram_file_id := "FILE_A";
     ref_file_type := "pdf";
     ref_filename := Some "lecture.pdf";
     ref_file_size := Some 1000;
     ref_course_id := Some "course_1";
     ref_metadata := ref_metadata lecture;
     ref_is_active := false;
     ref_created_at := 0;
     ref_last_refreshed := Some 0 |}.

Definition store (refs : list FileReference) : World :=
  {| file_references := refs;
     media_files := [];
     channel_mappings := [];
     clock_reads := 0;
     upstream_calls := 0;
     tokens_drawn := 0;
     trace := [] |}.

(** The clock reads [now], then one microsecond more at each further
    reading; every probe answers [probe]; every download answers 200
    with the three bytes [ABC]. *)
Definition env_at (now : Z) (probe : GetFileResult) : Env :=
  {| utcnow_at := fun n => now + Z.of_nat n;
     utc_offset := 0;
     bot_get_file_at := fun _ _ => probe;
     http_get_at := fun _ _ => HttpResponse 200 [x41; x42; x43];
     token_hex_at := fun _ => "00aa11bb22cc33dd" |}.

Definition probe_ok : GetFileResult := GetFileOk "https://files/FILE_A".
Definition probe_invalid : GetFileResult :=
  GetFileRaises (TelegramError BadRequest "Invalid file_id").
Definition probe_timed_out : GetFileResult :=
  GetFileRaises (TelegramError TimedOut "Timed out").

(** Chat -100123, a supergroup, feeds course [course_1]. *)
Definition algebra_channel : ChannelMapping :=
  {| map_channel_id := "-100123";
     map_course_id := "course_1";
     map_is_active := true;
     map_created_at := 0;
     map_last_synced := 0 |}.

Definition mapped_store : World :=
  {| file_references := [];
     media_files := [];
     channel_mappings := [algebra_channel];
     clock_reads := 0;
     upstream_calls := 0;
     tokens_drawn := 0;
     trace := [] |}.

Definition posted_file (mime : option string) : FileInfo :=
  {| file_id := "FILE_A";
     file_name := Some "lecture.pdf";
     mime_type := mime;
     file_size := Some 1000 |}.

(** A document with mime type [mime] posted in supergroup -100123. *)
Definition document_post (mime : option string) : Message :=
  {| chat := {| chat_id := -100123;
                chat_type := "supergroup";
                chat_title := Some "Algebra" |};
     message_id := 7;
     document := Some (posted_file mime);
     video := None |}.

(** A campus around world [w] with the given users and enrolments. *)
Definition campus (w : World) (accounts : list User)
    (enrolments : list UserCourse) : Campus :=
  {| world := w;
     users := accounts;
     courses :=
       [{| course_oid := "65f000000000000000000001";
           course_course_id := "course_1";
           course_app_id := "app_1";
           course_name := "Algebra";
           course_is_active := true |};
        {| course_oid := "65f000000000000000000002";
           course_course_id := "course_2";
           course_app_id := "app_1";
           course_name := "Geometry";
           course_is_active := false |}];
     user_courses := enrolments;
     user_activities := [];
     object_ids_drawn := 0;
     outbox := [] |}.

(** The bot's environment: the clock starts at [now]; [get_chat] answers
    [chat]; the n-th identifier handed out ends in n. *)
Definition bot_env (now : Z) (chat : GetChatResult) : BotEnv :=
  {| base := env_at now probe_ok;
     object_id_at := fun n => "65f00000000000000000010" ++ Py.str_int (Z.of_nat n);
     bot_get_chat_at := fun _ _ => chat;
     webapp_url := "https://edulearn.example" |}.

(** A user who has reset the device [resets] times. *)
Definition student (resets : Z) : User :=
  {| user_id := "65f0000000000000000000aa";
     user_telegram_id := "4242";
     user_username := Some "ada";
     user_first_name := "Ada";
     user_last_name := None;
     user_chat_id := "4242";
     user_created_at := 0;
     user_updated_at := 0;
     user_is_banned := false;
     user_banned_at := None;
     user_device_reset_count := resets;
     user_last_activity := 0;
     user_device_fingerprint := Some "fp-1";
     user_device_info := Some "phone" |}.

(** A command sent by Telegram user 4242 in the private chat 4242. *)
Definition command_of_ada : Command :=
  {| effective_user :=
       {| tg_id := 4242; tg_username := Some "ada";
          tg_first_name := "Ada"; tg_last_name := None |};
     effective_chat_id := 4242 |}.

End Examples.

(* ------------------------------------------------------------------ *)
(** ** Collection lemmas *)

Section CollectionFacts.
Context {A : Type}.
Variables (p : A -> bool) (f : A -> A).

Lemma find_one_update_one (l : list A) :
  (forall x, p (f x) = p x) ->
  find_one p (update_one p f l) = option_map f (find_one p l).
Proof.
  intros Hp. unfold find_one.
  induction l as [|x rest IH]; simpl; [reflexivity|].
  destruct (p x) eqn:Hx; simpl.
  - now rewrite Hp, Hx.
  - now rewrite Hx.
Qed.

Lemma find_one_In (l : list A) (x : A) :
  find_one p l = Some x -> In x l /\ p x = true.
Proof. apply find_some. Qed.
End CollectionFacts.

Lemma find_one_other_id (id id' : string) (f : FileReference -> FileReference)
    (l : list FileReference) :
  (forall r, ref_reference_id (f r) = ref_reference_id r) ->
  id' <> id ->
  find_one (has_reference_id id') (update_one (has_reference_id id) f l)
  = find_one (has_reference_id id') l.
Proof.
  intros Hf Hne. unfold find_one.
  induction l as [|x rest IH]; simpl; [reflexivity|].
  destruct (has_reference_id id x) eqn:Hx; simpl.
  - unfold has_reference_id in *. rewrite Hf.
    apply String.eqb_eq in Hx. rewrite Hx.
    destruct (String.eqb id id') eqn:E; [|reflexivity].
    apply String.eqb_eq in E. congruence.
  - now rewrite IH.
Qed.

(* ------------------------------------------------------------------ *)
(** ** The refresh strategy *)

Section RefreshFacts.
Variable env : Env.

Lemma revalidate_is_refreshed_at (now : Z) (r : FileReference) :
  apply_update (revalidate r) now r = refreshed_at (bson_datetime now) r.
Proof. reflexivity. Qed.

Lemma refresh_file_id_probe_ok (r : FileReference) (w : World) (path : string) :
  bot_get_file_at env (upstream_calls w) (ref_telegram_file_id r)
  = GetFileOk path ->
  StorageManager.refresh_file_id env r w
  = (Some (ref_telegram_file_id r), after_probe_ok env r w).
Proof.
  intros Hprobe.
  unfold StorageManager.refresh_file_id, bind, bot_get_file.
  rewrite Hprobe.
  unfold Database.update_file_reference, bind, utcnow, emit, ret.
  cbn. unfold after_probe_ok, set_trace, set_file_references. cbn.
  rewrite <- app_assoc. reflexivity.
Qed.

Lemma refresh_file_id_probe_raises (r : FileReference) (w : World) (e : Exn) :
  bot_get_file_at env (upstream_calls w) (ref_telegram_file_id r)
  = GetFileRaises e ->
  StorageManager.refresh_file_id env r w
  = (None,
     set_trace (trace w ++ probe_failure_events r e)
       (set_upstream_calls (S (upstream_calls w)) w)).
Proof.
  intros Hprobe.
  unfold StorageManager.refresh_file_id, bind, bot_get_file.
  rewrite Hprobe.
  destruct e as [c msg|msg]; cbn;
    unfold set_trace; cbn; repeat rewrite <- app_assoc; reflexivity.
Qed.

End RefreshFacts.

(* ------------------------------------------------------------------ *)
(** ** Freshness resolver *)

(** C3. A stored reference whose age, at the clock reading taken by
    [get_fresh_file_id], is strictly below 23 hours resolves to its stored
    handle; the only change to the world is that the clock was read once:
    the store, the count of upstream calls and the trace are as before. *)
Theorem fresh_reference_resolves_without_refresh
    (env : Env) (w : World) (reference_id : string) (r : FileReference) (t : Z) :
  find_one (has_reference_id reference_id) (file_references w) = Some r ->
  ref_last_refreshed r = Some t ->
  utcnow_at env (clock_reads w) - t < StorageManager.file_refresh_interval * hour ->
  StorageManager.get_fresh_file_id env reference_id w
  = (Some (ref_telegram_file_id r), set_clock_reads (S (clock_reads w)) w).
Proof.
  intros Hfind Hstamp Hage.
  unfold StorageManager.get_fresh_file_id, bind, Database.get_file_reference.
  rewrite Hfind, Hstamp. unfold utcnow.
  replace (StorageManager.file_refresh_interval * 3600 * second)
    with (StorageManager.file_refresh_interval * hour)
    by (unfold hour; ring).
  apply Z.ltb_lt in Hage. rewrite Hage. reflexivity.
Qed.

Lemma fresh_reference_resolves_without_refresh_witness :
  StorageManager.get_fresh_file_id
    (Examples.env_at (22 * hour) Examples.probe_invalid)
    Examples.lecture_id (Examples.store [Examples.lecture])
  = (Some "FILE_A",
     set_clock_reads 1 (Examples.store [Examples.lecture])).
Proof.
  apply (fresh_reference_resolves_without_refresh
           (Examples.env_at (22 * hour) Examples.probe_invalid)
           (Examples.store [Examples.lecture])
           Examples.lecture_id Examples.lecture 0).
  - reflexivity.
  - reflexivity.
  - vm_compute. reflexivity.
Defined.

Lemma found_reference_has_id (reference_id : string) (l : list FileReference)
    (r : FileReference) :
  find_one (has_reference_id reference_id) l = Some r ->
  ref_reference_id r = reference_id.
Proof.
  intros H. apply find_one_In in H. destruct H as [_ H].
  now apply String.eqb_eq in H.
Qed.

(** A stored reference that is not fresh is handed to the refresh. *)
Lemma stale_reference_goes_to_refresh
    (env : Env) (w : World) (reference_id : string) (r : FileReference) (t : Z) :
  find_one (has_reference_id reference_id) (file_references w) = Some r ->
  ref_last_refreshed r = Some t ->
  StorageManager.file_refresh_interval * hour <= utcnow_at env (clock_reads w) - t ->
  StorageManager.get_fresh_file_id env reference_id w
  = StorageManager.refresh_file_id env r (set_clock_reads (S (clock_reads w)) w).
Proof.
  intros Hfind Hstamp Hage.
  unfold StorageManager.get_fresh_file_id, bind, Database.get_file_reference.
  rewrite Hfind, Hstamp. unfold utcnow.
  replace (StorageManager.file_refresh_interval * 3600 * second)
    with (StorageManager.file_refresh_interval * hour)
    by (unfold hour; ring).
  apply Z.ltb_ge in Hage. rewrite Hage. reflexivity.
Qed.

(** C4. A stored reference whose age is at least 23 hours and whose probe
    succeeds resolves to its stored handle; afterwards the store holds the
    same reference with [last_refreshed] set to the clock reading taken by
    the update (the second reading of the call), at the millisecond the
    store keeps, and every other field, the handle included, as before;
    references under other identifiers are untouched. *)
Theorem stale_reference_revalidated
    (env : Env) (w : World) (reference_id : string) (r : FileReference)
    (t : Z) (path : string) :
  find_one (has_reference_id reference_id) (file_references w) = Some r ->
  ref_last_refreshed r = Some t ->
  StorageManager.file_refresh_interval * hour <= utcnow_at env (clock_reads w) - t ->
  bot_get_file_at env (upstream_calls w) (ref_telegram_file_id r) = GetFileOk path ->
  let (handle, w') := StorageManager.get_fresh_file_id env reference_id w in
  handle = Some (ref_telegram_file_id r)
  /\ find_one (has_reference_id reference_id) (file_references w')
     = Some (refreshed_at (bson_datetime (utcnow_at env (S (clock_reads w)))) r)
  /\ forall other, other <> reference_id ->
       find_one (has_reference_id other) (file_references w')
       = find_one (has_reference_id other) (file_references w).
Proof.
  intros Hfind Hstamp Hage Hprobe.
  rewrite (stale_reference_goes_to_refresh env w reference_id r t Hfind Hstamp Hage).
  rewrite (refresh_file_id_probe_ok env r _ path) by exact Hprobe.
  pose proof (found_reference_has_id _ _ _ Hfind) as Hid.
  split; [reflexivity|]. cbn. rewrite Hid. split.
  - rewrite find_one_update_one by (intros x; reflexivity).
    rewrite Hfind. reflexivity.
  - intros other Hne. apply find_one_other_id; [reflexivity | exact Hne].
Qed.

Lemma stale_reference_revalidated_witness :
  let (handle, w') :=
    StorageManager.get_fresh_file_id
      (Examples.env_at (24 * hour) Examples.probe_ok)
      Examples.lecture_id (Examples.store [Examples.lecture]) in
  handle = Some "FILE_A"
  /\ find_one (has_reference_id Examples.lecture_id) (file_references w')
     = Some (refreshed_at (24 * hour) Examples.lecture)
  /\ forall other, other <> Examples.lecture_id ->
       find_one (has_reference_id other) (file_references w')
       = find_one (has_reference_id other) [Examples.lecture].
Proof.
  apply (stale_reference_revalidated
           (Examples.env_at (24 * hour) Examples.probe_ok)
           (Examples.store [Examples.lecture])
           Examples.lecture_id Examples.lecture 0 "https://files/FILE_A").
  - reflexivity.
  - reflexivity.
  - vm_compute. discriminate.
  - reflexivity.
Defined.

(* ------------------------------------------------------------------ *)
(** ** Refresh failures *)

(** C5. When the probe of a stored reference is rejected with a
    [TelegramError], re-discovery finds nothing ([find_file_in_channel]
    returns [None]), the refresh returns [None], and the
    [file_references] collection is exactly as before: the reference is
    still stored with the same handle, [last_refreshed] and [is_active]. *)
Theorem failed_rediscovery_leaves_reference
    (env : Env) (w : World) (r : FileReference)
    (c : TelegramErrorClass) (msg : string) :
  In r (file_references w) ->
  bot_get_file_at env (upstream_calls w) (ref_telegram_file_id r)
  = GetFileRaises (TelegramError c msg) ->
  let (handle, w') := StorageManager.refresh_file_id env r w in
  handle = None
  /\ file_references w' = file_references w
  /\ In r (file_references w').
Proof.
  intros Hin Hprobe.
  rewrite (refresh_file_id_probe_raises env r w _ Hprobe).
  cbn. auto.
Qed.

Lemma failed_rediscovery_leaves_reference_witness :
  let (handle, w') :=
    StorageManager.refresh_file_id
      (Examples.env_at (24 * hour) Examples.probe_invalid)
      Examples.lecture (Examples.store [Examples.lecture]) in
  handle = None
  /\ file_references w' = [Examples.lecture]
  /\ In Examples.lecture (file_references w').
Proof.
  apply (failed_rediscovery_leaves_reference
           (Examples.env_at (24 * hour) Examples.probe_invalid)
           (Examples.store [Examples.lecture]) Examples.lecture
           BadRequest "Invalid file_id").
  - left. reflexivity.
  - reflexivity.
Defined.

(** C2, as the code has it. Whatever exception the probe raises, the
    refresh returns [None] and leaves the [file_references] collection as
    it was. Every [TelegramError], a timeout or rate limit as much as a
    rejected handle, is logged as an expired handle and followed by the
    search of [find_file_in_channel]; any other exception is logged and
    ends the refresh without a search. *)
Theorem probe_failure_outcome
    (env : Env) (w : World) (r : FileReference) (e : Exn) :
  bot_get_file_at env (upstream_calls w) (ref_telegram_file_id r)
  = GetFileRaises e ->
  let (handle, w') := StorageManager.refresh_file_id env r w in
  handle = None
  /\ file_references w' = file_references w
  /\ trace w' = (trace w ++ probe_failure_events r e)%list.
Proof.
  intros Hprobe.
  rewrite (refresh_file_id_probe_raises env r w e Hprobe).
  cbn. auto.
Qed.

Lemma probe_failure_outcome_witness :
  let (handle, w') :=
    StorageManager.refresh_file_id
      (Examples.env_at (24 * hour) Examples.probe_timed_out)
      Examples.lecture (Examples.store [Examples.lecture]) in
  handle = None
  /\ file_references w' = [Examples.lecture]
  /\ trace w'
     = ([] ++ probe_failure_events Examples.lecture
                 (TelegramError TimedOut "Timed out"))%list.
Proof.
  apply (probe_failure_outcome
           (Examples.env_at (24 * hour) Examples.probe_timed_out)
           (Examples.store [Examples.lecture]) Examples.lecture
           (TelegramError TimedOut "Timed out")).
  reflexivity.
Defined.

(** C2 fails as stated: a probe that times out (a transient error) makes
    the refresh search the channel, and the caller gets [None], the very
    outcome, log lines included, of a probe that rejected the handle. *)
Lemma transient_probe_error_is_treated_as_expired :
  transient TimedOut = true
  /\ fst (StorageManager.refresh_file_id
            (Examples.env_at (24 * hour) Examples.probe_timed_out)
            Examples.lecture (Examples.store [Examples.lecture]))
     = None
  /\ In (Log INFO "Searching for file lecture.pdf in channel -100123")
       (trace (snd (StorageManager.refresh_file_id
                      (Examples.env_at (24 * hour) Examples.probe_timed_out)
                      Examples.lecture (Examples.store [Examples.lecture]))))
  /\ StorageManager.refresh_file_id
       (Examples.env_at (24 * hour) Examples.probe_timed_out)
       Examples.lecture (Examples.store [Examples.lecture])
     = StorageManager.refresh_file_id
         (Examples.env_at (24 * hour) Examples.probe_invalid)
         Examples.lecture (Examples.store [Examples.lecture]).
Proof.
  repeat split.
  vm_compute. right. right. left. reflexivity.
Qed.

(* ------------------------------------------------------------------ *)
(** ** The soft-delete flag on the read path *)

(** The value returned by a refresh is decided by the probe alone. *)
Lemma refresh_file_id_result (env : Env) (r : FileReference) (w : World) :
  fst (StorageManager.refresh_file_id env r w)
  = match bot_get_file_at env (upstream_calls w) (ref_telegram_file_id r) with
    | GetFileOk _ => Some (ref_telegram_file_id r)
    | GetFileRaises _ => None
    end.
Proof.
  destruct (bot_get_file_at env (upstream_calls w) (ref_telegram_file_id r))
    as [path|e] eqn:Hprobe.
  - now rewrite (refresh_file_id_probe_ok env r w path Hprobe).
  - now rewrite (refresh_file_id_probe_raises env r w e Hprobe).
Qed.

Lemma find_one_with_active (flag : FileReference -> bool) (reference_id : string)
    (l : list FileReference) :
  find_one (has_reference_id reference_id) (map (with_active flag) l)
  = option_map (with_active flag) (find_one (has_reference_id reference_id) l).
Proof.
  unfold find_one.
  induction l as [|x rest IH]; simpl; [reflexivity|].
  change (has_reference_id reference_id (with_active flag x))
    with (has_reference_id reference_id x).
  destruct (has_reference_id reference_id x); [reflexivity | exact IH].
Qed.

(** C1, as the code has it. [get_fresh_file_id] returns [None] without
    touching the store or the upstream when no reference is stored under
    the identifier; and the [is_active] flag is never read: rewriting the
    flags of the stored references in any way leaves the value it returns
    unchanged. *)
Theorem resolve_ignores_active_flag
    (env : Env) (w : World) (reference_id : string) :
  (find_one (has_reference_id reference_id) (file_references w) = None ->
   StorageManager.get_fresh_file_id env reference_id w
   = (None,
      set_trace
        (trace w ++ [Log ERROR ("File reference not found: " ++ reference_id)])
        w))
  /\ forall flag : FileReference -> bool,
       fst (StorageManager.get_fresh_file_id env reference_id
              (set_file_references
                 (map (with_active flag) (file_references w)) w))
       = fst (StorageManager.get_fresh_file_id env reference_id w).
Proof.
  split.
  - intros Hnone.
    unfold StorageManager.get_fresh_file_id, bind, Database.get_file_reference.
    rewrite Hnone. reflexivity.
  - intros flag.
    unfold StorageManager.get_fresh_file_id, bind, Database.get_file_reference.
    cbn [file_references set_file_references].
    rewrite find_one_with_active.
    destruct (find_one (has_reference_id reference_id) (file_references w))
      as [r|]; [|reflexivity].
    cbn [option_map].
    change (ref_last_refreshed (with_active flag r)) with (ref_last_refreshed r).
    change (ref_telegram_file_id (with_active flag r))
      with (ref_telegram_file_id r).
    destruct (ref_last_refreshed r) as [t|].
    + unfold utcnow. cbn [clock_reads set_file_references].
      destruct (_ <? _); [reflexivity|].
      now rewrite !refresh_file_id_result.
    + now rewrite !refresh_file_id_result.
Qed.

Lemma resolve_ignores_active_flag_witness :
  StorageManager.get_fresh_file_id
    (Examples.env_at (22 * hour) Examples.probe_ok)
    "ref_0_ffffffffffffffff" (Examples.store [Examples.lecture])
  = (None,
     set_trace
       [Log ERROR "File reference not found: ref_0_ffffffffffffffff"]
       (Examples.store [Examples.lecture]))
  /\ fst (StorageManager.get_fresh_file_id
            (Examples.env_at (22 * hour) Examples.probe_ok)
            Examples.lecture_id
            (set_file_references
               (map (with_active (fun _ => false)) [Examples.lecture])
               (Examples.store [Examples.lecture])))
     = fst (StorageManager.get_fresh_file_id
              (Examples.env_at (22 * hour) Examples.probe_ok)
              Examples.lecture_id (Examples.store [Examples.lecture])).
Proof.
  split.
  - apply (resolve_ignores_active_flag
             (Examples.env_at (22 * hour) Examples.probe_ok)
             (Examples.store [Examples.lecture]) "ref_0_ffffffffffffffff").
    reflexivity.
  - apply (resolve_ignores_active_flag
             (Examples.env_at (22 * hour) Examples.probe_ok)
             (Examples.store [Examples.lecture]) Examples.lecture_id).
Defined.

(** C1 fails as stated: the stored reference is inactive, and resolving
    its identifier 22 hours after its last refresh returns its handle. *)
Lemma inactive_reference_still_resolves :
  find_one (has_reference_id Examples.lecture_id)
    (file_references (Examples.store [Examples.deleted_lecture]))
  = Some Examples.deleted_lecture
  /\ ref_is_active Examples.deleted_lecture = false
  /\ fst (StorageManager.get_fresh_file_id
            (Examples.env_at (22 * hour) Examples.probe_invalid)
            Examples.lecture_id (Examples.store [Examples.deleted_lecture]))
     = Some "FILE_A".
Proof. repeat split. Qed.

(* ------------------------------------------------------------------ *)
(** ** Stream resolver *)

(** C6, as the code has it. When [get_file_stream] succeeds, the bytes it
    returns are the content downloaded, with status 200, from the file
    path that the provider gave for the resolved handle; the name it
    returns is the [filename] of the reference stored under the
    identifier; and the size it returns is the number of bytes of that
    downloaded content. *)
Theorem stream_carries_stored_name_and_content_length
    (env : Env) (w w' : World) (reference_id : string)
    (content : list byte) (name : option string) (size : Z) :
  StorageManager.get_file_stream env reference_id w
  = (Some (content, name, size), w') ->
  size = Z.of_nat (List.length content)
  /\ (exists r,
        find_one (has_reference_id reference_id) (file_references w') = Some r
        /\ name = ref_filename r)
  /\ exists handle file_path resolved,
       StorageManager.get_fresh_file_id env reference_id w
       = (Some handle, resolved)
       /\ bot_get_file_at env (upstream_calls resolved) handle
          = GetFileOk file_path
       /\ http_get_at env (S (upstream_calls resolved)) file_path
          = HttpResponse 200 content.
Proof.
  unfold StorageManager.get_file_stream, bind.
  destruct (StorageManager.get_fresh_file_id env reference_id w) as [fid w1].
  destruct fid as [handle|]; [|discriminate].
  destruct (negb (Py.truthy (Some handle))); [discriminate|].
  unfold bot_get_file.
  destruct (bot_get_file_at env (upstream_calls w1) handle) as [path|e]
    eqn:Hprobe; [|discriminate].
  unfold http_get.
  cbn [upstream_calls set_trace set_upstream_calls].
  destruct (http_get_at env (S (upstream_calls w1)) path) as [status body|e]
    eqn:Hget; [|discriminate].
  destruct (status =? 200) eqn:Hstatus; [|discriminate].
  apply Z.eqb_eq in Hstatus. subst status.
  unfold Database.get_file_reference.
  match goal with
  | |- context [find_one ?p ?l] => destruct (find_one p l) as [r|] eqn:Hfind
  end; [|discriminate].
  unfold ret. intros H. injection H as Hcontent Hname Hsize Hw.
  subst. split; [reflexivity|]. split.
  - exists r. split; [exact Hfind | reflexivity].
  - exists handle, path, w1. auto.
Qed.

Lemma stream_carries_stored_name_and_content_length_witness :
  3 = Z.of_nat (List.length [x41; x42; x43])
  /\ (exists r,
        find_one (has_reference_id Examples.lecture_id)
          (file_references
             (snd (StorageManager.get_file_stream
                     (Examples.env_at (22 * hour) Examples.probe_ok)
                     Examples.lecture_id (Examples.store [Examples.lecture]))))
        = Some r
        /\ Some "lecture.pdf" = ref_filename r)
  /\ exists handle file_path resolved,
       StorageManager.get_fresh_file_id
         (Examples.env_at (22 * hour) Examples.probe_ok)
         Examples.lecture_id (Examples.store [Examples.lecture])
       = (Some handle, resolved)
       /\ bot_get_file_at (Examples.env_at (22 * hour) Examples.probe_ok)
            (upstream_calls resolved) handle
          = GetFileOk file_path
       /\ http_get_at (Examples.env_at (22 * hour) Examples.probe_ok)
            (S (upstream_calls resolved)) file_path
          = HttpResponse 200 [x41; x42; x43].
Proof.
  apply (stream_carries_stored_name_and_content_length
           (Examples.env_at (22 * hour) Examples.probe_ok)
           (Examples.store [Examples.lecture])).
  reflexivity.
Defined.

(** C6 fails as stated: the reference declares 1000 bytes, the download
    has three, and the size returned with the stream is 3. *)
Lemma stream_size_is_not_the_declared_size :
  ref_file_size Examples.lecture = Some 1000
  /\ fst (StorageManager.get_file_stream
            (Examples.env_at (22 * hour) Examples.probe_ok)
            Examples.lecture_id (Examples.store [Examples.lecture]))
     = Some ([x41; x42; x43], Some "lecture.pdf", 3).
Proof. split; reflexivity. Qed.

(* ------------------------------------------------------------------ *)
(** ** Soft delete *)

(** C8, as the code has it. Deleting a stored reference sets its
    [is_active] flag to false and keeps its handle, and, because
    [update_file_reference] stamps every update, also sets its
    [last_refreshed] to the clock reading of the call, at the millisecond
    the store keeps; the other fields and the references under other
    identifiers are as before. *)
Theorem delete_keeps_handle_and_stamps_last_refreshed
    (env : Env) (w : World) (reference_id : string) (r : FileReference) :
  find_one (has_reference_id reference_id) (file_references w) = Some r ->
  let (_, w') := StorageManager.delete_file_reference env reference_id w in
  find_one (has_reference_id reference_id) (file_references w')
  = Some (with_active (fun _ => false)
            (refreshed_at (bson_datetime (utcnow_at env (clock_reads w))) r))
  /\ forall other, other <> reference_id ->
       find_one (has_reference_id other) (file_references w')
       = find_one (has_reference_id other) (file_references w).
Proof.
  intros Hfind.
  unfold StorageManager.delete_file_reference, Database.update_file_reference,
    bind, utcnow, emit, ret.
  cbn. split.
  - rewrite find_one_update_one by (intros x; reflexivity).
    rewrite Hfind. reflexivity.
  - intros other Hne. apply find_one_other_id; [reflexivity | exact Hne].
Qed.

Lemma delete_keeps_handle_and_stamps_last_refreshed_witness :
  let (_, w') :=
    StorageManager.delete_file_reference
      (Examples.env_at (30 * hour) Examples.probe_ok)
      Examples.lecture_id (Examples.store [Examples.lecture]) in
  find_one (has_reference_id Examples.lecture_id) (file_references w')
  = Some (with_active (fun _ => false)
            (refreshed_at (30 * hour) Examples.lecture))
  /\ forall other, other <> Examples.lecture_id ->
       find_one (has_reference_id other) (file_references w')
       = find_one (has_reference_id other) [Examples.lecture].
Proof.
  apply (delete_keeps_handle_and_stamps_last_refreshed
           (Examples.env_at (30 * hour) Examples.probe_ok)
           (Examples.store [Examples.lecture])
           Examples.lecture_id Examples.lecture).
  reflexivity.
Defined.

(** C8 fails as stated: a reference last refreshed at time 0 and deleted
    30 hours later is stored with [last_refreshed] at 30 hours. *)
Lemma delete_rewrites_last_refreshed :
  ref_last_refreshed Examples.lecture = Some 0
  /\ map ref_last_refreshed
       (file_references
          (snd (StorageManager.delete_file_reference
                  (Examples.env_at (30 * hour) Examples.probe_ok)
                  Examples.lecture_id (Examples.store [Examples.lecture]))))
     = [Some 108000000000]
  /\ map ref_is_active
       (file_references
          (snd (StorageManager.delete_file_reference
                  (Examples.env_at (30 * hour) Examples.probe_ok)
                  Examples.lecture_id (Examples.store [Examples.lecture]))))
     = [false].
Proof. repeat split. Qed.

(* ------------------------------------------------------------------ *)
(** ** Storage statistics *)

Lemma insert_by_order_length (m : MediaFile) (l : list MediaFile) :
  List.length (insert_by_order m l) = S (List.length l).
Proof.
  induction l as [|x rest IH]; simpl; [reflexivity|].
  destruct (media_order m <? media_order x); simpl; [reflexivity|].
  now rewrite IH.
Qed.

Lemma sort_by_order_length (l : list MediaFile) :
  List.length (sort_by_order l) = List.length l.
Proof.
  induction l as [|x rest IH]; simpl; [reflexivity|].
  now rewrite insert_by_order_length, IH.
Qed.

(** C10. [get_storage_stats] leaves the world as it is and returns
    [total_files] = the number of media files, [video_files] and
    [pdf_files] = the number of media files whose [course_id] is the empty
    string and whose [file_type] is ['video'], respectively ['pdf'], and
    [document_files] = [total_files - video_files - pdf_files]. *)
Theorem storage_stats_count_only_the_empty_course (w : World) :
  StorageManager.get_storage_stats w
  = ({| total_files := Z.of_nat (List.length (media_files w));
        video_files := count_media "" "video" (media_files w);
        pdf_files := count_media "" "pdf" (media_files w);
        document_files :=
          Z.of_nat (List.length (media_files w))
          - count_media "" "video" (media_files w)
          - count_media "" "pdf" (media_files w) |}, w).
Proof.
  unfold StorageManager.get_storage_stats, bind, ret,
    Database.get_total_media_files_count, Database.get_course_media_files.
  cbn [Py.truthy String.eqb negb].
  rewrite !sort_by_order_length.
  reflexivity.
Qed.

(** No media file of a course with a non-empty identifier is counted. *)
Lemma count_media_skips_named_courses (file_type : string) (l : list MediaFile) :
  (forall m, In m l -> media_course_id m <> "") ->
  count_media "" file_type l = 0.
Proof.
  intros Hnamed. unfold count_media.
  replace (filter (media_of "" file_type) l) with (@nil MediaFile);
    [reflexivity|].
  symmetry. induction l as [|x rest IH]; simpl; [reflexivity|].
  unfold media_of at 1.
  destruct (String.eqb (media_course_id x) "") eqn:E.
  - apply String.eqb_eq in E. exfalso. apply (Hnamed x); [now left | exact E].
  - simpl. apply IH. intros m Hm. apply Hnamed. now right.
Qed.

(* ------------------------------------------------------------------ *)
(** ** Background sweeper *)


Section SweeperFacts.
Variable env : Env.




Lemma get_expired_file_references_spec (w : World) :
  Database.get_expired_file_references env StorageManager.file_refresh_interval w
  = (expired_at (utcnow_at env (clock_reads w)) (file_references w),
     set_clock_reads (S (clock_reads w)) w).
Proof. reflexivity. Qed.


End SweeperFacts.



(* ------------------------------------------------------------------ *)
(** ** Ingestion *)

Lemma classify_media_kind (msg : Message) (info : FileInfo) (kind : string) :
  payload_kind msg info kind ->
  StorageManager.classify_media msg = (Some info, Some kind).
Proof.
  intros H. unfold StorageManager.classify_media.
  destruct H as [doc mime Hdoc Hmime Hpdf Hvideo
                | doc mime Hdoc Hmime Hvideo
                | vid Hdoc Hvid
                | doc mime Hdoc Hmime Hpdf Hvideo
                | doc Hdoc Hmime].
  - rewrite Hdoc, Hmime, Hvideo, Hpdf.
    destruct mime; [discriminate Hpdf | reflexivity].
  - rewrite Hdoc, Hmime, Hvideo.
    destruct mime; [discriminate Hvideo | reflexivity].
  - rewrite Hdoc, Hvid. reflexivity.
  - rewrite Hdoc, Hmime, Hvideo, Hpdf.
    destruct (Py.truthy (Some mime)); reflexivity.
  - rewrite Hdoc, Hmime. reflexivity.
Qed.

(** Every message that carries a document or a video falls under one case
    of the rule. *)
Lemma payload_kind_total (msg : Message) :
  document msg <> None \/ video msg <> None ->
  exists info kind, payload_kind msg info kind.
Proof.
  intros H.
  destruct (document msg) as [doc|] eqn:Hdoc.
  - destruct (mime_type doc) as [mime|] eqn:Hmime.
    + destruct (Py.contains "video" mime) eqn:Hvideo.
      * exists doc, "video". now apply kind_video_document with (mime := mime).
      * destruct (Py.contains "pdf" mime) eqn:Hpdf.
        -- exists doc, "pdf". now apply kind_pdf_document with (mime := mime).
        -- exists doc, "document".
           now apply kind_other_document with (mime := mime).
    + exists doc, "document". now apply kind_untyped_document.
  - destruct (video msg) as [vid|] eqn:Hvid.
    + exists vid, "video". now apply kind_video_payload.
    + destruct H as [H|H]; now elim H.
Qed.

Lemma group_chat_is_accepted (t : string) :
  In t ["group"; "supergroup"] -> In t ["group"; "supergroup"; "channel"].
Proof. cbn. tauto. Qed.

Lemma chat_type_accepted (t : string) :
  In t ["group"; "supergroup"; "channel"] ->
  existsb (String.eqb t) ["group"; "supergroup"; "channel"] = true.
Proof.
  intros H. apply existsb_exists. exists t. split; [exact H|].
  apply String.eqb_refl.
Qed.

(** C9, as the code has it. A message from a chat with no channel mapping
    leaves the world untouched. A message from a group or supergroup that
    has a mapping adds one file reference and one media file, both of the
    type given by [payload_kind]: [pdf] for a document whose mime type
    contains ['pdf'] and not ['video'], [video] for a video payload or a
    document whose mime type contains ['video'], [document] for a
    document with any other or no mime type. *)
Theorem ingest_skips_unmapped_and_classifies
    (env : Env) (w : World) (update : Update) (msg : Message) :
  message update = Some msg ->
  (mapping_of msg w = None ->
   StorageManager.process_channel_media env update w = (tt, w))
  /\ forall mapping info kind,
       In (chat_type (chat msg)) ["group"; "supergroup"] ->
       mapping_of msg w = Some mapping ->
       payload_kind msg info kind ->
       exists r m,
         file_references (snd (StorageManager.process_channel_media env update w))
         = (file_references w ++ [r])%list
         /\ media_files (snd (StorageManager.process_channel_media env update w))
            = (media_files w ++ [m])%list
         /\ ref_file_type r = kind
         /\ media_file_type m = kind
         /\ ref_telegram_file_id r = file_id info
         /\ ref_is_active r = true
         /\ ref_course_id r = Some (map_course_id mapping)
         /\ media_course_id m = map_course_id mapping
         /\ media_reference_id m = ref_reference_id r.
Proof.
  intros Hmsg. split.
  - intros Hnone. unfold StorageManager.process_channel_media.
    rewrite Hmsg.
    destruct (negb _); [reflexivity|].
    unfold bind, Database.get_channel_mapping.
    unfold mapping_of in Hnone. rewrite Hnone. reflexivity.
  - intros mapping info kind Htype Hmap Hkind.
    unfold StorageManager.process_channel_media.
    rewrite Hmsg, (chat_type_accepted _ (group_chat_is_accepted _ Htype)).
    cbn [negb].
    unfold mapping_of in Hmap.
    unfold bind, Database.get_channel_mapping. rewrite Hmap.
    rewrite (classify_media_kind msg info kind Hkind).
    unfold StorageManager.create_file_reference,
      StorageManager.generate_reference_id,
      Database.create_file_reference, Database.create_media_file,
      bind, utcnow, token_hex, logger, emit, ret.
    cbn [snd fst file_references media_files clock_reads tokens_drawn trace
         set_file_references set_media_files set_clock_reads set_tokens_drawn
         set_trace upstream_calls channel_mappings].
    eexists. eexists.
    repeat (split; [reflexivity|]). reflexivity.
Qed.

Lemma ingest_skips_unmapped_and_classifies_witness :
  StorageManager.process_channel_media
    (Examples.env_at 0 Examples.probe_ok)
    {| message := Some (Examples.document_post (Some "application/pdf")) |}
    (Examples.store [])
  = (tt, Examples.store [])
  /\ exists r m,
       file_references
         (snd (StorageManager.process_channel_media
                 (Examples.env_at 0 Examples.probe_ok)
                 {| message :=
                      Some (Examples.document_post (Some "application/pdf")) |}
                 Examples.mapped_store))
       = ([] ++ [r])%list
       /\ media_files
            (snd (StorageManager.process_channel_media
                    (Examples.env_at 0 Examples.probe_ok)
                    {| message :=
                         Some (Examples.document_post (Some "application/pdf")) |}
                    Examples.mapped_store))
          = ([] ++ [m])%list
       /\ ref_file_type r = "pdf"
       /\ media_file_type m = "pdf"
       /\ ref_telegram_file_id r = "FILE_A"
       /\ ref_is_active r = true
       /\ ref_course_id r = Some "course_1"
       /\ media_course_id m = "course_1"
       /\ media_reference_id m = ref_reference_id r.
Proof.
  split.
  - apply (proj1 (ingest_skips_unmapped_and_classifies
                    (Examples.env_at 0 Examples.probe_ok) (Examples.store [])
                    {| message :=
                         Some (Examples.document_post (Some "application/pdf")) |}
                    (Examples.document_post (Some "application/pdf"))
                    eq_refl)).
    reflexivity.
  - apply (proj2 (ingest_skips_unmapped_and_classifies
                    (Examples.env_at 0 Examples.probe_ok) Examples.mapped_store
                    {| message :=
                         Some (Examples.document_post (Some "application/pdf")) |}
                    (Examples.document_post (Some "application/pdf"))
                    eq_refl)
             Examples.algebra_channel
             (Examples.posted_file (Some "application/pdf")) "pdf").
    + right. left. reflexivity.
    + reflexivity.
    + apply kind_pdf_document with (mime := "application/pdf"); reflexivity.
Defined.

(** C9 fails as stated: a document whose mime type contains both ['pdf']
    and ['video'] is registered as a video, the first test of the chain. *)
Lemma pdf_hint_loses_to_video_hint :
  Py.contains "pdf" "video/pdf" = true
  /\ map ref_file_type
       (file_references
          (snd (StorageManager.process_channel_media
                  (Examples.env_at 0 Examples.probe_ok)
                  {| message := Some (Examples.document_post (Some "video/pdf")) |}
                  Examples.mapped_store)))
     = ["video"]
  /\ map media_file_type
       (media_files
          (snd (StorageManager.process_channel_media
                  (Examples.env_at 0 Examples.probe_ok)
                  {| message := Some (Examples.document_post (Some "video/pdf")) |}
                  Examples.mapped_store)))
     = ["video"].
Proof. repeat split. Qed.

(* ------------------------------------------------------------------ *)
(** ** Further properties: lookups *)

Lemma find_one_app {A} (p : A -> bool) (l : list A) (x : A) :
  find_one p (l ++ [x])
  = match find_one p l with
    | Some y => Some y
    | None => if p x then Some x else None
    end.
Proof.
  unfold find_one. induction l as [|y rest IH]; simpl.
  - destruct (p x); reflexivity.
  - destruct (p y); [reflexivity | exact IH].
Qed.

Lemma update_one_unmatched {A} (p : A -> bool) (f : A -> A) (l : list A) :
  find_one p l = None -> update_one p f l = l.
Proof.
  unfold find_one. induction l as [|x rest IH]; simpl; [reflexivity|].
  destruct (p x); [discriminate|]. intros H. now rewrite IH.
Qed.

(** A stored reference younger than the refresh interval resolves from
    the store. *)
Lemma get_fresh_file_id_fresh
    (env : Env) (w : World) (reference_id : string) (r : FileReference) (t : Z) :
  find_one (has_reference_id reference_id) (file_references w) = Some r ->
  ref_last_refreshed r = Some t ->
  utcnow_at env (clock_reads w) - t < StorageManager.file_refresh_interval * hour ->
  StorageManager.get_fresh_file_id env reference_id w
  = (Some (ref_telegram_file_id r), set_clock_reads (S (clock_reads w)) w).
Proof.
  intros Hfind Hstamp Hage.
  unfold StorageManager.get_fresh_file_id, bind, Database.get_file_reference.
  rewrite Hfind, Hstamp. unfold utcnow.
  replace (StorageManager.file_refresh_interval * 3600 * second)
    with (StorageManager.file_refresh_interval * hour)
    by (unfold hour; ring).
  apply Z.ltb_lt in Hage. rewrite Hage. reflexivity.
Qed.

Lemma get_fresh_file_id_not_found (env : Env) (w : World) (reference_id : string) :
  find_one (has_reference_id reference_id) (file_references w) = None ->
  StorageManager.get_fresh_file_id env reference_id w
  = (None, after_not_found reference_id w).
Proof.
  intros Hnone.
  unfold StorageManager.get_fresh_file_id, bind, Database.get_file_reference.
  rewrite Hnone. reflexivity.
Qed.

(** The world and identifier produced by [create_file_reference]. *)
Lemma create_file_reference_spec
    (env : Env) (w : World) (handle file_type : string)
    (filename : option string) (size : option Z) (course : option string)
    (metadata : option Metadata) :
  let k := clock_reads w in
  let reference_id :=
    fst (StorageManager.create_file_reference env handle file_type filename
           size course metadata w) in
  let w1 :=
    snd (StorageManager.create_file_reference env handle file_type filename
           size course metadata w) in
  file_references w1
  = (file_references w
     ++ [{| ref_reference_id := reference_id;
            ref_telegram_file_id := handle;
            ref_file_type := file_type;
            ref_filename := filename;
            ref_file_size := size;
            ref_course_id := course;
            ref_metadata := match metadata with
                            | Some m => m
                            | None => empty_metadata
                            end;
            ref_is_active := true;
            ref_created_at := bson_datetime (utcnow_at env (S k));
            ref_last_refreshed :=
              Some (bson_datetime (utcnow_at env (S (S k)))) |}])%list
  /\ clock_reads w1 = S (S (S k))
  /\ upstream_calls w1 = upstream_calls w
  /\ media_files w1 = media_files w
  /\ channel_mappings w1 = channel_mappings w.
Proof. cbv zeta. repeat split. Qed.

Lemma created_reference_is_found
    (env : Env) (w w2 : World) (handle file_type : string)
    (filename : option string) (size : option Z) (course : option string)
    (metadata : option Metadata) :
  let created :=
    StorageManager.create_file_reference env handle file_type filename size
      course metadata w in
  find_one (has_reference_id (fst created)) (file_references w) = None ->
  file_references w2 = file_references (snd created) ->
  exists r,
    find_one (has_reference_id (fst created)) (file_references w2) = Some r
    /\ ref_telegram_file_id r = handle
    /\ ref_last_refreshed r
       = Some (bson_datetime (utcnow_at env (S (S (clock_reads w)))))
    /\ frozen r
       = (fst created, file_type, filename, size, course,
          match metadata with Some m => m | None => empty_metadata end,
          true, bson_datetime (utcnow_at env (S (clock_reads w)))).
Proof.
  cbv zeta. intros Hnew Hstore.
  destruct (create_file_reference_spec env w handle file_type filename size
              course metadata) as [Hrefs _].
  rewrite Hstore, Hrefs, find_one_app, Hnew.
  unfold has_reference_id at 1. cbn [ref_reference_id].
  rewrite String.eqb_refl.
  eexists. split; [reflexivity|]. repeat split.
Qed.

(** X1. A reference registered under an identifier not yet in the store
    resolves, as long as the store is as registration left it and less
    than 23 hours have passed on the clock since the stamp stored at
    registration (the third clock reading of the registration, at the
    millisecond), to the handle it was registered with, without any
    upstream call. *)
Theorem created_reference_resolves_to_its_handle
    (env : Env) (w w2 : World) (handle file_type : string)
    (filename : option string) (size : option Z) (course : option string)
    (metadata : option Metadata) :
  let created :=
    StorageManager.create_file_reference env handle file_type filename size
      course metadata w in
  find_one (has_reference_id (fst created)) (file_references w) = None ->
  file_references w2 = file_references (snd created) ->
  utcnow_at env (clock_reads w2)
  - bson_datetime (utcnow_at env (S (S (clock_reads w))))
  < StorageManager.file_refresh_interval * hour ->
  StorageManager.get_fresh_file_id env (fst created) w2
  = (Some handle, set_clock_reads (S (clock_reads w2)) w2).
Proof.
  cbv zeta. intros Hnew Hstore Hage.
  destruct (created_reference_is_found env w w2 handle file_type filename size
              course metadata Hnew Hstore) as (r & Hfind & Hhandle & Hstamp & _).
  rewrite <- Hhandle.
  now apply get_fresh_file_id_fresh
    with (t := bson_datetime (utcnow_at env (S (S (clock_reads w))))).
Qed.

Lemma created_reference_resolves_to_its_handle_witness :
  StorageManager.get_fresh_file_id (Examples.env_at 0 Examples.probe_invalid)
    "ref_0_00aa11bb22cc33dd"
    (snd (StorageManager.create_file_reference
            (Examples.env_at 0 Examples.probe_invalid)
            "FILE_B" "video" (Some "intro.mp4") (Some 5) None None
            (Examples.store [Examples.lecture])))
  = (Some "FILE_B",
     set_clock_reads 4
       (snd (StorageManager.create_file_reference
               (Examples.env_at 0 Examples.probe_invalid)
               "FILE_B" "video" (Some "intro.mp4") (Some 5) None None
               (Examples.store [Examples.lecture])))).
Proof.
  apply (created_reference_resolves_to_its_handle
           (Examples.env_at 0 Examples.probe_invalid)
           (Examples.store [Examples.lecture])
           (snd (StorageManager.create_file_reference
                   (Examples.env_at 0 Examples.probe_invalid)
                   "FILE_B" "video" (Some "intro.mp4") (Some 5) None None
                   (Examples.store [Examples.lecture])))
           "FILE_B" "video" (Some "intro.mp4") (Some 5) None None).
  - reflexivity.
  - reflexivity.
  - vm_compute. reflexivity.
Defined.

(** X2. The metadata read back for a reference registered under an
    identifier not yet in the store are the values it was registered
    with: identifier, filename, type, size and origin metadata (the empty
    metadata when none was given), with the two stamps of the
    registration at the millisecond the store keeps; reading them changes
    nothing. *)
Theorem created_reference_metadata_round_trip
    (env : Env) (w w2 : World) (handle file_type : string)
    (filename : option string) (size : option Z) (course : option string)
    (metadata : option Metadata) :
  let created :=
    StorageManager.create_file_reference env handle file_type filename size
      course metadata w in
  find_one (has_reference_id (fst created)) (file_references w) = None ->
  file_references w2 = file_references (snd created) ->
  StorageManager.get_file_metadata (fst created) w2
  = (Some {| meta_reference_id := fst created;
             meta_filename := filename;
             meta_file_type := file_type;
             meta_file_size := size;
             meta_created_at :=
               bson_datetime (utcnow_at env (S (clock_reads w)));
             meta_last_refreshed :=
               Some (bson_datetime (utcnow_at env (S (S (clock_reads w)))));
             meta_metadata := match metadata with
                              | Some m => m
                              | None => empty_metadata
                              end |}, w2).
Proof.
  cbv zeta. intros Hnew Hstore.
  destruct (created_reference_is_found env w w2 handle file_type filename size
              course metadata Hnew Hstore) as (r & Hfind & _ & Hstamp & Hfrozen).
  unfold StorageManager.get_file_metadata, bind, Database.get_file_reference.
  rewrite Hfind. unfold ret. rewrite Hstamp.
  unfold frozen in Hfrozen. injection Hfrozen as -> -> -> -> _ -> _ ->.
  reflexivity.
Qed.

Lemma created_reference_metadata_round_trip_witness :
  StorageManager.get_file_metadata "ref_0_00aa11bb22cc33dd"
    (snd (StorageManager.create_file_reference
            (Examples.env_at 1500 Examples.probe_invalid)
            "FILE_B" "video" (Some "intro.mp4") (Some 5) None None
            (Examples.store [Examples.lecture])))
  = (Some {| meta_reference_id := "ref_0_00aa11bb22cc33dd";
             meta_filename := Some "intro.mp4";
             meta_file_type := "video";
             meta_file_size := Some 5;
             meta_created_at := 1000;
             meta_last_refreshed := Some 1000;
             meta_metadata := empty_metadata |},
     snd (StorageManager.create_file_reference
            (Examples.env_at 1500 Examples.probe_invalid)
            "FILE_B" "video" (Some "intro.mp4") (Some 5) None None
            (Examples.store [Examples.lecture]))).
Proof.
  apply (created_reference_metadata_round_trip
           (Examples.env_at 1500 Examples.probe_invalid)
           (Examples.store [Examples.lecture])
           (snd (StorageManager.create_file_reference
                   (Examples.env_at 1500 Examples.probe_invalid)
                   "FILE_B" "video" (Some "intro.mp4") (Some 5) None None
                   (Examples.store [Examples.lecture])))
           "FILE_B" "video" (Some "intro.mp4") (Some 5) None None).
  - reflexivity.
  - reflexivity.
Defined.

(* ------------------------------------------------------------------ *)
(** ** Further properties: minted identifiers *)

Lemma to_int_not_nil (n : Z) :
  Z.to_int n <> Decimal.Pos Decimal.Nil /\ Z.to_int n <> Decimal.Neg Decimal.Nil.
Proof.
  assert (Hpos : forall p, Pos.to_uint p <> Decimal.Nil).
  { intros p H. pose proof (DecimalPos.Unsigned.of_to p) as Hof.
    rewrite H in Hof. discriminate Hof. }
  destruct n as [|p|p]; simpl; split; try discriminate;
    intros H; injection H as H; exact (Hpos p H).
Qed.

Lemma str_int_inj (n m : Z) : Py.str_int n = Py.str_int m -> n = m.
Proof.
  unfold Py.str_int. intros H.
  apply DecimalZ.to_int_inj.
  destruct (to_int_not_nil n) as [Hn1 Hn2].
  destruct (to_int_not_nil m) as [Hm1 Hm2].
  pose proof (NilZero.isi (Z.to_int n) Hn1 Hn2) as Pn.
  pose proof (NilZero.isi (Z.to_int m) Hm1 Hm2) as Pm.
  rewrite H in Pn. rewrite Pn in Pm. now injection Pm.
Qed.

Lemma string_length_append (a b : string) :
  String.length (a ++ b) = (String.length a + String.length b)%nat.
Proof. induction a as [|c a IH]; simpl; [reflexivity | now rewrite IH]. Qed.

Lemma append_inj_same_suffix_length (a b s t : string) :
  String.length s = String.length t ->
  (a ++ s = b ++ t)%string -> a = b /\ s = t.
Proof.
  intros Hlen. revert b.
  induction a as [|c a IH]; intros [|d b] H; simpl in H.
  - now split.
  - exfalso. apply (f_equal String.length) in H. simpl in H.
    rewrite string_length_append in H. lia.
  - exfalso. apply (f_equal String.length) in H. simpl in H.
    rewrite string_length_append in H. lia.
  - injection H as Hc H. destruct (IH b H) as [Hab Hst].
    now subst.
Qed.

(** X3. Two minted identifiers whose random parts have the same length
    (16 hexadecimal characters for [token_hex(8)]) are equal only if both
    were minted in the same second and drew the same random part. *)
Theorem reference_ids_collide_only_on_second_and_token
    (env1 env2 : Env) (w1 w2 : World) :
  String.length (token_hex_at env1 (tokens_drawn w1))
  = String.length (token_hex_at env2 (tokens_drawn w2)) ->
  fst (StorageManager.generate_reference_id env1 w1)
  = fst (StorageManager.generate_reference_id env2 w2) ->
  Z.quot (utcnow_at env1 (clock_reads w1) - utc_offset env1 * second) second
  = Z.quot (utcnow_at env2 (clock_reads w2) - utc_offset env2 * second) second
  /\ token_hex_at env1 (tokens_drawn w1) = token_hex_at env2 (tokens_drawn w2).
Proof.
  intros Hlen Heq.
  unfold StorageManager.generate_reference_id, bind, utcnow, token_hex, ret in Heq.
  cbn [fst tokens_drawn clock_reads set_clock_reads] in Heq.
  cbn [append] in Heq.
  injection Heq as Heq.
  apply append_inj_same_suffix_length in Heq.
  - destruct Heq as [Hsec Htok]. split.
    + now apply str_int_inj.
    + cbn [append] in Htok. now injection Htok.
  - cbn [append String.length]. now rewrite Hlen.
Qed.

Lemma reference_ids_collide_only_on_second_and_token_witness :
  Z.quot (utcnow_at (Examples.env_at 1500000 Examples.probe_ok) 0
          - utc_offset (Examples.env_at 1500000 Examples.probe_ok) * second)
    second
  = Z.quot (utcnow_at (Examples.env_at 1999999 Examples.probe_ok) 0
            - utc_offset (Examples.env_at 1999999 Examples.probe_ok) * second)
      second
  /\ token_hex_at (Examples.env_at 1500000 Examples.probe_ok) 0
     = token_hex_at (Examples.env_at 1999999 Examples.probe_ok) 0.
Proof.
  apply (reference_ids_collide_only_on_second_and_token
           (Examples.env_at 1500000 Examples.probe_ok)
           (Examples.env_at 1999999 Examples.probe_ok)
           (Examples.store []) (Examples.store [])).
  - reflexivity.
  - reflexivity.
Defined.

(* ------------------------------------------------------------------ *)
(** ** Further properties: readers *)

(** X4. For an identifier under which nothing is stored, the stream, the
    URL and the access check are refused ([None], [None], [False]) after
    one error line in the log, with no upstream call and no store write;
    the metadata lookup returns [None] and changes nothing at all. *)
Theorem unknown_reference_is_refused_without_upstream_call
    (env : Env) (w : World) (reference_id : string) :
  find_one (has_reference_id reference_id) (file_references w) = None ->
  StorageManager.get_file_stream env reference_id w
  = (None, after_not_found reference_id w)
  /\ StorageManager.get_file_url env reference_id w
     = (None, after_not_found reference_id w)
  /\ StorageManager.validate_file_access env reference_id w
     = (false, after_not_found reference_id w)
  /\ StorageManager.get_file_metadata reference_id w = (None, w).
Proof.
  intros Hnone.
  unfold StorageManager.get_file_stream, StorageManager.get_file_url,
    StorageManager.validate_file_access, StorageManager.get_file_metadata.
  unfold bind, Database.get_file_reference.
  rewrite (get_fresh_file_id_not_found env w reference_id Hnone), Hnone.
  repeat split.
Qed.

Lemma unknown_reference_is_refused_without_upstream_call_witness :
  StorageManager.get_file_stream (Examples.env_at 0 Examples.probe_ok)
    "ref_0_ffffffffffffffff" (Examples.store [Examples.lecture])
  = (None, after_not_found "ref_0_ffffffffffffffff"
             (Examples.store [Examples.lecture]))
  /\ StorageManager.get_file_url (Examples.env_at 0 Examples.probe_ok)
       "ref_0_ffffffffffffffff" (Examples.store [Examples.lecture])
     = (None, after_not_found "ref_0_ffffffffffffffff"
                (Examples.store [Examples.lecture]))
  /\ StorageManager.validate_file_access (Examples.env_at 0 Examples.probe_ok)
       "ref_0_ffffffffffffffff" (Examples.store [Examples.lecture])
     = (false, after_not_found "ref_0_ffffffffffffffff"
                 (Examples.store [Examples.lecture]))
  /\ StorageManager.get_file_metadata "ref_0_ffffffffffffffff"
       (Examples.store [Examples.lecture])
     = (None, Examples.store [Examples.lecture]).
Proof.
  apply (unknown_reference_is_refused_without_upstream_call
           (Examples.env_at 0 Examples.probe_ok)
           (Examples.store [Examples.lecture]) "ref_0_ffffffffffffffff").
  reflexivity.
Defined.

Lemma nonempty_is_truthy (s : string) : s <> "" -> Py.truthy (Some s) = true.
Proof.
  intros H. unfold Py.truthy. apply negb_true_iff. now apply String.eqb_neq.
Qed.

(** X5. For a stored reference younger than 23 hours with a non-empty
    handle, [get_file_stream] returns the downloaded bytes, the stored
    filename and the byte count exactly when the file lookup succeeds and
    the download answers 200; a failed lookup, a failed download or any
    other status gives [None]. In every case the references are left as
    they were and at most two upstream calls are made. *)
Theorem stream_of_fresh_reference
    (env : Env) (w : World) (reference_id : string) (r : FileReference) (t : Z) :
  find_one (has_reference_id reference_id) (file_references w) = Some r ->
  ref_last_refreshed r = Some t ->
  utcnow_at env (clock_reads w) - t < StorageManager.file_refresh_interval * hour ->
  ref_telegram_file_id r <> "" ->
  let (result, w') := StorageManager.get_file_stream env reference_id w in
  result
  = match bot_get_file_at env (upstream_calls w) (ref_telegram_file_id r) with
    | GetFileOk file_path =>
        match http_get_at env (S (upstream_calls w)) file_path with
        | HttpResponse status content =>
            if status =? 200
            then Some (content, ref_filename r, Z.of_nat (List.length content))
            else None
        | HttpRaises _ => None
        end
    | GetFileRaises _ => None
    end
  /\ file_references w' = file_references w
  /\ (upstream_calls w' <= upstream_calls w + 2)%nat.
Proof.
  intros Hfind Hstamp Hage Hhandle.
  unfold StorageManager.get_file_stream. unfold bind at 1.
  rewrite (get_fresh_file_id_fresh env w reference_id r t Hfind Hstamp Hage).
  rewrite (nonempty_is_truthy _ Hhandle). cbn [negb].
  unfold bind, bot_get_file, http_get, Database.get_file_reference, logger,
    emit, ret.
  cbn [upstream_calls set_clock_reads trace clock_reads].
  destruct (bot_get_file_at env (upstream_calls w) (ref_telegram_file_id r))
    as [path|e];
    cbn [upstream_calls set_trace set_upstream_calls set_clock_reads trace
         file_references];
    [|repeat split; lia].
  destruct (http_get_at env (S (upstream_calls w)) path) as [status content|e];
    cbn [upstream_calls set_trace set_upstream_calls set_clock_reads trace
         file_references];
    [|repeat split; lia].
  destruct (status =? 200);
    cbn [upstream_calls set_trace set_upstream_calls set_clock_reads trace
         file_references];
    [|repeat split; lia].
  rewrite Hfind.
  cbn [upstream_calls set_trace set_upstream_calls set_clock_reads trace
       file_references].
  repeat split; lia.
Qed.

Lemma stream_of_fresh_reference_witness :
  let (result, w') :=
    StorageManager.get_file_stream
      (Examples.env_at (22 * hour) Examples.probe_ok)
      Examples.lecture_id (Examples.store [Examples.lecture]) in
  result
  = match bot_get_file_at (Examples.env_at (22 * hour) Examples.probe_ok) 0
            "FILE_A" with
    | GetFileOk file_path =>
        match http_get_at (Examples.env_at (22 * hour) Examples.probe_ok) 1
                file_path with
        | HttpResponse status content =>
            if status =? 200
            then Some (content, Some "lecture.pdf", Z.of_nat (List.length content))
            else None
        | HttpRaises _ => None
        end
    | GetFileRaises _ => None
    end
  /\ file_references w' = [Examples.lecture]
  /\ (upstream_calls w' <= 0 + 2)%nat.
Proof.
  apply (stream_of_fresh_reference
           (Examples.env_at (22 * hour) Examples.probe_ok)
           (Examples.store [Examples.lecture])
           Examples.lecture_id Examples.lecture 0).
  - reflexivity.
  - reflexivity.
  - vm_compute. reflexivity.
  - discriminate.
Defined.

(** X6. The access check answers [True] exactly when the URL lookup, run
    from the same state, returns a URL; the two leave the same references
    behind and make the same number of upstream calls. *)
Theorem validate_file_access_agrees_with_get_file_url
    (env : Env) (w : World) (reference_id : string) :
  fst (StorageManager.validate_file_access env reference_id w)
  = match fst (StorageManager.get_file_url env reference_id w) with
    | Some _ => true
    | None => false
    end
  /\ file_references (snd (StorageManager.validate_file_access env reference_id w))
     = file_references (snd (StorageManager.get_file_url env reference_id w))
  /\ upstream_calls (snd (StorageManager.validate_file_access env reference_id w))
     = upstream_calls (snd (StorageManager.get_file_url env reference_id w)).
Proof.
  unfold StorageManager.validate_file_access, StorageManager.get_file_url, bind.
  destruct (StorageManager.get_fresh_file_id env reference_id w) as [fid w1].
  destruct fid as [handle|]; [|repeat split].
  destruct (negb (Py.truthy (Some handle))); [repeat split|].
  unfold bot_get_file.
  destruct (bot_get_file_at env (upstream_calls w1) handle) as [path|e];
    repeat split.
Qed.

(* ------------------------------------------------------------------ *)
(** ** Further properties: soft delete *)

(** X12. Deleting an identifier under which nothing is stored returns
    [False] and leaves every document as it was; the world records one
    clock reading and the update that matched nothing. *)
Theorem delete_of_unknown_reference_changes_nothing
    (env : Env) (w : World) (reference_id : string) :
  find_one (has_reference_id reference_id) (file_references w) = None ->
  StorageManager.delete_file_reference env reference_id w
  = (false,
     set_trace (trace w ++ [DbUpdate "file_references" reference_id])
       (set_clock_reads (S (clock_reads w)) w)).
Proof.
  intros Hnone.
  unfold StorageManager.delete_file_reference, Database.update_file_reference,
    bind, utcnow, emit, ret.
  cbn [file_references set_clock_reads]. rewrite Hnone.
  rewrite (update_one_unmatched _ _ _ Hnone).
  unfold set_trace, set_file_references, set_clock_reads. cbn.
  destruct w; reflexivity.
Qed.

Lemma delete_of_unknown_reference_changes_nothing_witness :
  StorageManager.delete_file_reference (Examples.env_at 0 Examples.probe_ok)
    "ref_0_ffffffffffffffff" (Examples.store [Examples.lecture])
  = (false,
     set_trace [DbUpdate "file_references" "ref_0_ffffffffffffffff"]
       (set_clock_reads 1 (Examples.store [Examples.lecture]))).
Proof.
  apply (delete_of_unknown_reference_changes_nothing
           (Examples.env_at 0 Examples.probe_ok)
           (Examples.store [Examples.lecture]) "ref_0_ffffffffffffffff").
  reflexivity.
Defined.

(** X13. After a stored reference is deleted, resolving its identifier
    still returns its handle; and because the delete stamped
    [last_refreshed], for 23 hours from the stamp it stored (the clock
    reading of the delete, at the millisecond) it does so from the store,
    without probing upstream, however stale the reference was. *)
Theorem deleted_reference_resolves_from_the_store
    (env : Env) (w w2 : World) (reference_id : string) (r : FileReference) :
  find_one (has_reference_id reference_id) (file_references w) = Some r ->
  file_references w2
  = file_references (snd (StorageManager.delete_file_reference env reference_id w)) ->
  utcnow_at env (clock_reads w2) - bson_datetime (utcnow_at env (clock_reads w))
  < StorageManager.file_refresh_interval * hour ->
  StorageManager.get_fresh_file_id env reference_id w2
  = (Some (ref_telegram_file_id r), set_clock_reads (S (clock_reads w2)) w2).
Proof.
  intros Hfind Hstore Hage.
  apply get_fresh_file_id_fresh
    with (r := with_active (fun _ => false)
                 (refreshed_at (bson_datetime (utcnow_at env (clock_reads w))) r))
         (t := bson_datetime (utcnow_at env (clock_reads w)));
    [|reflexivity|exact Hage].
  rewrite Hstore.
  unfold StorageManager.delete_file_reference, Database.update_file_reference,
    bind, utcnow, emit, ret.
  cbn. rewrite find_one_update_one by (intros x; reflexivity).
  rewrite Hfind. reflexivity.
Qed.

Lemma deleted_reference_resolves_from_the_store_witness :
  StorageManager.get_fresh_file_id
    (Examples.env_at (30 * hour) Examples.probe_invalid) Examples.lecture_id
    (snd (StorageManager.delete_file_reference
            (Examples.env_at (30 * hour) Examples.probe_invalid)
            Examples.lecture_id (Examples.store [Examples.lecture])))
  = (Some "FILE_A",
     set_clock_reads 2
       (snd (StorageManager.delete_file_reference
               (Examples.env_at (30 * hour) Examples.probe_invalid)
               Examples.lecture_id (Examples.store [Examples.lecture])))).
Proof.
  apply (deleted_reference_resolves_from_the_store
           (Examples.env_at (30 * hour) Examples.probe_invalid)
           (Examples.store [Examples.lecture])
           (snd (StorageManager.delete_file_reference
                   (Examples.env_at (30 * hour) Examples.probe_invalid)
                   Examples.lecture_id (Examples.store [Examples.lecture])))
           Examples.lecture_id Examples.lecture).
  - reflexivity.
  - reflexivity.
  - vm_compute. reflexivity.
Defined.

(* ------------------------------------------------------------------ *)
(** ** Further properties: what the sweeper leaves alone *)

Lemma same_catalog_refl (w : World) : same_catalog w w.
Proof. repeat split. Qed.

Lemma same_catalog_trans (a b c : World) :
  same_catalog a b -> same_catalog b c -> same_catalog a c.
Proof.
  intros (H1 & H2 & H3) (K1 & K2 & K3).
  repeat split; congruence.
Qed.

Lemma map_frozen_update_one (p : FileReference -> bool)
    (f : FileReference -> FileReference) (l : list FileReference) :
  (forall x, frozen (f x) = frozen x) ->
  map frozen (update_one p f l) = map frozen l.
Proof.
  intros Hf. induction l as [|x rest IH]; simpl; [reflexivity|].
  destruct (p x); simpl; [now rewrite Hf | now rewrite IH].
Qed.

Section SweeperFrame.
Variable env : Env.

Lemma refresh_file_id_same_catalog (r : FileReference) (w : World) :
  same_catalog w (snd (StorageManager.refresh_file_id env r w)).
Proof.
  destruct (bot_get_file_at env (upstream_calls w) (ref_telegram_file_id r))
    as [path|e] eqn:Hprobe.
  - rewrite (refresh_file_id_probe_ok env r w path Hprobe).
    repeat split. cbn. apply map_frozen_update_one. reflexivity.
  - rewrite (refresh_file_id_probe_raises env r w e Hprobe).
    repeat split.
Qed.

Lemma refresh_step_same_catalog (r : FileReference) (w : World) :
  same_catalog w (snd (StorageManager.refresh_step env r w)).
Proof.
  unfold StorageManager.refresh_step, bind, logger, sleep, emit.
  match goal with
  | |- context [StorageManager.refresh_file_id env r ?w0] =>
      pose proof (refresh_file_id_same_catalog r w0) as H;
      destruct (StorageManager.refresh_file_id env r w0) as [res w1]
  end.
  exact H.
Qed.

Lemma for_each_refresh_step_same_catalog (l : list FileReference) (w : World) :
  same_catalog w
    (snd (StorageManager.for_each (StorageManager.refresh_step env) l w)).
Proof.
  revert w. induction l as [|r rest IH]; intros w.
  - apply same_catalog_refl.
  - cbn [StorageManager.for_each]. unfold bind.
    pose proof (refresh_step_same_catalog r w) as Hstep.
    destruct (StorageManager.refresh_step env r w) as [u w1].
    apply same_catalog_trans with (b := w1); [exact Hstep | apply IH].
Qed.

Lemma refresh_cycle_same_catalog (w : World) :
  same_catalog w (snd (StorageManager.refresh_cycle env w)).
Proof.
  unfold StorageManager.refresh_cycle, bind.
  rewrite get_expired_file_references_spec.
  generalize (expired_at (utcnow_at env (clock_reads w)) (file_references w)).
  intros expired.
  pose proof (for_each_refresh_step_same_catalog expired
                (set_clock_reads (S (clock_reads w)) w)) as H.
  destruct (StorageManager.for_each (StorageManager.refresh_step env) expired
              (set_clock_reads (S (clock_reads w)) w)) as [u w1].
  unfold logger, sleep, emit, ret.
  destruct expired; exact H.
Qed.

Lemma refresh_cycles_same_catalog (cycles : nat) (w : World) :
  same_catalog w (snd (StorageManager.refresh_cycles env cycles w)).
Proof.
  revert w. induction cycles as [|n IH]; intros w.
  - apply same_catalog_refl.
  - cbn [StorageManager.refresh_cycles]. unfold bind.
    pose proof (refresh_cycle_same_catalog w) as Hcycle.
    destruct (StorageManager.refresh_cycle env w) as [u w1].
    apply same_catalog_trans with (b := w1); [exact Hcycle | apply IH].
Qed.

End SweeperFrame.

(** X7. However many cycles the refresh task runs and whatever the
    upstream answers, it adds no reference, removes none and reorders
    none, and it changes no identifier, type, filename, size, course,
    origin metadata, active flag or creation stamp; media files and
    channel mappings are untouched. Only handles and refresh stamps can
    differ. *)
Theorem refresh_task_changes_only_handles_and_stamps
    (env : Env) (cycles : nat) (w : World) :
  same_catalog w (snd (StorageManager.start_file_refresh_task env cycles w)).
Proof.
  unfold StorageManager.start_file_refresh_task, bind, logger, emit.
  apply same_catalog_trans
    with (b := set_trace
                 (trace w ++ [Log INFO "Starting file refresh background task"])
                 w).
  - repeat split.
  - apply (refresh_cycles_same_catalog env cycles).
Qed.

Lemma update_one_keeps_keys (i h : string)
    (f : FileReference -> FileReference) (l : list FileReference) :
  (forall x, key (f x) = (ref_reference_id x, h)) ->
  NoDup (map ref_reference_id l) ->
  In (i, h) (map key l) ->
  map key (update_one (has_reference_id i) f l) = map key l.
Proof.
  intros Hf. induction l as [|x rest IH]; intros Hnodup Hin; [reflexivity|].
  cbn [map] in Hnodup, Hin. cbn [update_one].
  apply NoDup_cons_iff in Hnodup. destruct Hnodup as [Hfresh Hnodup].
  destruct (has_reference_id i x) eqn:Hx.
  - unfold has_reference_id in Hx. apply String.eqb_eq in Hx.
    cbn [map]. rewrite Hf. f_equal.
    destruct Hin as [Hkey|Hin].
    + unfold key in Hkey. unfold key. congruence.
    + exfalso. apply Hfresh. rewrite Hx.
      apply in_map_iff in Hin. destruct Hin as (y & Hy & Hin).
      apply in_map_iff. exists y. split; [|exact Hin].
      unfold key in Hy. congruence.
  - cbn [map]. f_equal. apply IH; [exact Hnodup|].
    destruct Hin as [Hkey|Hin]; [|exact Hin].
    exfalso. unfold key in Hkey. injection Hkey as Hid _.
    unfold has_reference_id in Hx. apply String.eqb_neq in Hx. contradiction.
Qed.

Lemma map_key_ids (l l' : list FileReference) :
  map key l' = map key l ->
  map ref_reference_id l' = map ref_reference_id l.
Proof.
  intros H. apply (f_equal (map fst)) in H.
  rewrite !map_map in H. exact H.
Qed.

Section SweeperHandles.
Variable env : Env.

Lemma refresh_file_id_keeps_keys (r : FileReference) (w : World) :
  NoDup (map ref_reference_id (file_references w)) ->
  In (key r) (map key (file_references w)) ->
  map key (file_references (snd (StorageManager.refresh_file_id env r w)))
  = map key (file_references w).
Proof.
  intros Hnodup Hin.
  destruct (bot_get_file_at env (upstream_calls w) (ref_telegram_file_id r))
    as [path|e] eqn:Hprobe.
  - rewrite (refresh_file_id_probe_ok env r w path Hprobe). cbn.
    apply update_one_keeps_keys with (h := ref_telegram_file_id r);
      [reflexivity | exact Hnodup | exact Hin].
  - rewrite (refresh_file_id_probe_raises env r w e Hprobe). reflexivity.
Qed.

Lemma for_each_refresh_step_keeps_keys (l : list FileReference) (w : World) :
  NoDup (map ref_reference_id (file_references w)) ->
  (forall r, In r l -> In (key r) (map key (file_references w))) ->
  map key (file_references
             (snd (StorageManager.for_each (StorageManager.refresh_step env) l w)))
  = map key (file_references w).
Proof.
  revert w. induction l as [|r rest IH]; intros w Hnodup Hin; [reflexivity|].
  cbn [StorageManager.for_each]. unfold bind.
  assert (Hstep :
            map key (file_references (snd (StorageManager.refresh_step env r w)))
            = map key (file_references w)).
  { unfold StorageManager.refresh_step, bind, logger, sleep, emit.
    match goal with
    | |- context [StorageManager.refresh_file_id env r ?w0] =>
        pose proof (refresh_file_id_keeps_keys r w0 Hnodup
                      (Hin r (or_introl eq_refl))) as H;
        destruct (StorageManager.refresh_file_id env r w0) as [res w1]
    end.
    exact H. }
  destruct (StorageManager.refresh_step env r w) as [u w1].
  cbn [snd] in Hstep.
  rewrite IH.
  - exact Hstep.
  - rewrite (map_key_ids _ _ Hstep). exact Hnodup.
  - intros x Hx. rewrite Hstep. apply Hin. now right.
Qed.

Lemma refresh_cycle_keeps_keys (w : World) :
  NoDup (map ref_reference_id (file_references w)) ->
  map key (file_references (snd (StorageManager.refresh_cycle env w)))
  = map key (file_references w).
Proof.
  intros Hnodup.
  unfold StorageManager.refresh_cycle, bind.
  rewrite get_expired_file_references_spec.
  pose proof (for_each_refresh_step_keeps_keys
                (expired_at (utcnow_at env (clock_reads w)) (file_references w))
                (set_clock_reads (S (clock_reads w)) w) Hnodup) as H.
  assert (Hsub : forall r,
             In r (expired_at (utcnow_at env (clock_reads w)) (file_references w)) ->
             In (key r) (map key (file_references w))).
  { intros r Hr. apply filter_In in Hr. apply in_map. tauto. }
  specialize (H Hsub). clear Hsub. revert H.
  generalize (expired_at (utcnow_at env (clock_reads w)) (file_references w)).
  intros expired H.
  destruct (StorageManager.for_each (StorageManager.refresh_step env) expired
              (set_clock_reads (S (clock_reads w)) w)) as [u w1].
  unfold logger, sleep, emit, ret.
  destruct expired; exact H.
Qed.

Lemma refresh_cycles_keep_keys (cycles : nat) (w : World) :
  NoDup (map ref_reference_id (file_references w)) ->
  map key (file_references (snd (StorageManager.refresh_cycles env cycles w)))
  = map key (file_references w).
Proof.
  revert w. induction cycles as [|n IH]; intros w Hnodup; [reflexivity|].
  cbn [StorageManager.refresh_cycles]. unfold bind.
  pose proof (refresh_cycle_keeps_keys w Hnodup) as Hcycle.
  destruct (StorageManager.refresh_cycle env w) as [u w1].
  cbn [snd] in Hcycle. rewrite IH; [exact Hcycle|].
  rewrite (map_key_ids _ _ Hcycle). exact Hnodup.
Qed.

End SweeperHandles.

(** X8. When no two stored references share an identifier, the refresh
    task, however many cycles it runs and whatever the upstream answers,
    leaves every reference's handle as it was: a successful probe writes
    back the handle that is already stored, and the search that follows a
    failed probe never finds a replacement. *)
Theorem refresh_task_keeps_handles
    (env : Env) (cycles : nat) (w : World) :
  NoDup (map ref_reference_id (file_references w)) ->
  map ref_telegram_file_id
    (file_references (snd (StorageManager.start_file_refresh_task env cycles w)))
  = map ref_telegram_file_id (file_references w).
Proof.
  intros Hnodup.
  unfold StorageManager.start_file_refresh_task, bind, logger, emit.
  match goal with
  | |- context [StorageManager.refresh_cycles env cycles ?w0] =>
      pose proof (refresh_cycles_keep_keys env cycles w0 Hnodup) as H
  end.
  apply (f_equal (map snd)) in H. rewrite !map_map in H. exact H.
Qed.

Lemma refresh_task_keeps_handles_witness :
  map ref_telegram_file_id
    (file_references
       (snd (StorageManager.start_file_refresh_task
               (Examples.env_at (24 * hour) Examples.probe_ok) 2
               (Examples.store [Examples.lecture]))))
  = ["FILE_A"].
Proof.
  apply (refresh_task_keeps_handles
           (Examples.env_at (24 * hour) Examples.probe_ok) 2
           (Examples.store [Examples.lecture])).
  repeat constructor. intros [].
Defined.

(** Without the uniqueness of identifiers the handle of the first of two
    references sharing one is overwritten with the handle of the second. *)
Lemma duplicate_identifier_overwrites_handle :
  map ref_telegram_file_id
    (file_references
       (snd (StorageManager.refresh_cycle
               (Examples.env_at (24 * hour) Examples.probe_ok)
               (Examples.store
                  [Examples.lecture;
                   with_active (fun _ => true)
                     {| ref_reference_id := Examples.lecture_id;
                        ref_telegram_file_id := "FILE_B";
                        ref_file_type := "pdf";
                        ref_filename := None;
                        ref_file_size := None;
                        ref_course_id := None;
                        ref_metadata := empty_metadata;
                        ref_is_active := true;
                        ref_created_at := 0;
                        ref_last_refreshed := Some 0 |}]))))
  = ["FILE_B"; "FILE_B"].
Proof. reflexivity. Qed.

Lemma filter_none {A} (p : A -> bool) (l : list A) :
  (forall x, In x l -> p x = false) -> filter p l = [].
Proof.
  induction l as [|x rest IH]; intros H; simpl; [reflexivity|].
  rewrite (H x (or_introl eq_refl)). apply IH.
  intros y Hy. apply H. now right.
Qed.

(** X16. When no stored reference is older than 23 hours at the clock
    reading of the query, a cycle of the refresh task reads the clock,
    sleeps for 3600 seconds and does nothing else: no upstream call, no
    store write, no log line. *)
Theorem idle_cycle_only_sleeps (env : Env) (w : World) :
  (forall r t,
      In r (file_references w) ->
      ref_last_refreshed r = Some t ->
      utcnow_at env (clock_reads w) - t
      <= StorageManager.file_refresh_interval * hour) ->
  StorageManager.refresh_cycle env w
  = (tt, set_trace (trace w ++ [Sleep 3600])
           (set_clock_reads (S (clock_reads w)) w)).
Proof.
  intros Hyoung.
  unfold StorageManager.refresh_cycle, bind.
  rewrite get_expired_file_references_spec.
  unfold expired_at. rewrite filter_none; [reflexivity|].
  intros r Hr. unfold Database.older_than.
  destruct (ref_last_refreshed r) as [t|] eqn:Hstamp; [|reflexivity].
  apply Z.ltb_ge. specialize (Hyoung r t Hr Hstamp). lia.
Qed.

Lemma idle_cycle_only_sleeps_witness :
  StorageManager.refresh_cycle (Examples.env_at (23 * hour) Examples.probe_invalid)
    (Examples.store [Examples.lecture])
  = (tt, set_trace [Sleep 3600]
           (set_clock_reads 1 (Examples.store [Examples.lecture]))).
Proof.
  apply (idle_cycle_only_sleeps
           (Examples.env_at (23 * hour) Examples.probe_invalid)
           (Examples.store [Examples.lecture])).
  intros r t [<-|[]] Ht. injection Ht as <-. vm_compute. discriminate.
Defined.

(* ------------------------------------------------------------------ *)
(** ** Further properties: refresh stamps never go back *)

Lemma stamp_le_refl (a : option Z) : stamp_le a a.
Proof. destruct a; simpl; [lia | exact I]. Qed.

Lemma stamp_le_trans (a b c : option Z) :
  stamp_le a b -> stamp_le b c -> stamp_le a c.
Proof. destruct a, b, c; simpl; try tauto; lia. Qed.

Lemma never_earlier_refl (l : list FileReference) : never_earlier l l.
Proof.
  induction l; constructor; [apply stamp_le_refl | assumption].
Qed.

Lemma never_earlier_trans (a b c : list FileReference) :
  never_earlier a b -> never_earlier b c -> never_earlier a c.
Proof.
  unfold never_earlier. intros Hab. revert c.
  induction Hab as [|x y l l' Hxy Hab IH]; intros c Hbc;
    inversion Hbc; subst; constructor.
  - eapply stamp_le_trans; eassumption.
  - now apply IH.
Qed.

Lemma never_earlier_update_one (p : FileReference -> bool)
    (f : FileReference -> FileReference) (l : list FileReference) :
  (forall x, In x l -> stamp_le (ref_last_refreshed x) (ref_last_refreshed (f x))) ->
  never_earlier l (update_one p f l).
Proof.
  induction l as [|x rest IH]; intros H; simpl; [constructor|].
  destruct (p x).
  - constructor; [apply H; now left | apply never_earlier_refl].
  - constructor; [apply stamp_le_refl | apply IH].
    intros y Hy. apply H. now right.
Qed.

Lemma In_update_one {A} (p : A -> bool) (f : A -> A) (l : list A) (y : A) :
  In y (update_one p f l) -> In y l \/ exists x, In x l /\ y = f x.
Proof.
  induction l as [|x rest IH]; simpl; [tauto|].
  destruct (p x); simpl.
  - intros [<-|H]; [right; exists x; auto | auto].
  - intros [<-|H]; [auto|].
    destruct (IH H) as [H1|(z & Hz & ->)]; [auto|].
    right. exists z. auto.
Qed.

Lemma bson_datetime_le (t : Z) : bson_datetime t <= t.
Proof.
  unfold bson_datetime, millisecond.
  pose proof (Z.mul_div_le t 1000). lia.
Qed.


Lemma bson_datetime_mono (a b : Z) : a <= b -> bson_datetime a <= bson_datetime b.
Proof.
  intros H. unfold bson_datetime, millisecond.
  pose proof (Z.div_le_mono a b 1000). lia.
Qed.

Lemma bson_datetime_idem (t : Z) : bson_datetime (bson_datetime t) = bson_datetime t.
Proof.
  unfold bson_datetime, millisecond. now rewrite Z.div_mul by lia.
Qed.

Section Stamps.
Variable env : Env.
Hypothesis clock_never_goes_back : monotone_clock env.

Lemma clock_monotone (n m : nat) :
  (n <= m)%nat -> utcnow_at env n <= utcnow_at env m.
Proof.
  induction 1 as [|m Hle IH]; [lia|].
  specialize (clock_never_goes_back m). lia.
Qed.

Lemma settled_same_store (w w' : World) :
  file_references w' = file_references w ->
  (clock_reads w <= clock_reads w')%nat ->
  whole_milliseconds w ->
  stamps_in_past env w -> settled env w w'.
Proof.
  intros Hstore Hclock Hwhole Hpast. split; [split|].
  - rewrite Hstore. apply never_earlier_refl.
  - intros r t Hr Ht. rewrite Hstore in Hr.
    specialize (Hpast r t Hr Ht).
    pose proof (clock_monotone _ _ Hclock). lia.
  - intros r t Hr Ht. rewrite Hstore in Hr. exact (Hwhole r t Hr Ht).
Qed.

Lemma settled_trans (a b c : World) :
  settled env a b -> settled env b c -> settled env a c.
Proof.
  intros [[H1 _] _] [[H2 H3] H4]. split; [split|]; [|exact H3|exact H4].
  eapply never_earlier_trans; eassumption.
Qed.

Lemma update_file_reference_settled (reference_id : string) (u : RefUpdate)
    (w : World) :
  whole_milliseconds w ->
  stamps_in_past env w ->
  settled env w (snd (Database.update_file_reference env reference_id u w)).
Proof.
  intros Hwhole Hpast.
  unfold Database.update_file_reference, bind, utcnow, emit, ret.
  cbn [snd file_references set_file_references set_trace set_clock_reads
       clock_reads].
  split; [split|].
  - cbn [file_references set_file_references set_trace set_clock_reads].
    apply never_earlier_update_one.
    intros x Hx. cbn [apply_update ref_last_refreshed].
    destruct (ref_last_refreshed x) as [t|] eqn:Ht; simpl; [|exact I].
    rewrite <- (Hwhole x t Hx Ht).
    apply bson_datetime_mono. exact (Hpast x t Hx Ht).
  - intros r t Hr Ht.
    cbn [file_references set_file_references set_trace set_clock_reads
         clock_reads] in Hr |- *.
    apply In_update_one in Hr. destruct Hr as [Hr|(x & Hx & ->)].
    + specialize (Hpast r t Hr Ht).
      specialize (clock_never_goes_back (clock_reads w)). lia.
    + cbn [apply_update ref_last_refreshed] in Ht. injection Ht as <-.
      pose proof (bson_datetime_le (utcnow_at env (clock_reads w))).
      specialize (clock_never_goes_back (clock_reads w)). lia.
  - intros r t Hr Ht.
    cbn [file_references set_file_references set_trace set_clock_reads] in Hr.
    apply In_update_one in Hr. destruct Hr as [Hr|(x & Hx & ->)].
    + exact (Hwhole r t Hr Ht).
    + cbn [apply_update ref_last_refreshed] in Ht. injection Ht as <-.
      apply bson_datetime_idem.
Qed.

Lemma refresh_file_id_settled (r : FileReference) (w : World) :
  whole_milliseconds w ->
  stamps_in_past env w ->
  settled env w (snd (StorageManager.refresh_file_id env r w)).
Proof.
  intros Hwhole Hpast.
  destruct (bot_get_file_at env (upstream_calls w) (ref_telegram_file_id r))
    as [path|e] eqn:Hprobe.
  - rewrite (refresh_file_id_probe_ok env r w path Hprobe).
    exact (update_file_reference_settled (ref_reference_id r)
             (revalidate r) w Hwhole Hpast).
  - rewrite (refresh_file_id_probe_raises env r w e Hprobe).
    apply settled_same_store;
      [reflexivity | cbn; lia | exact Hwhole | exact Hpast].
Qed.

Lemma get_fresh_file_id_settled (reference_id : string) (w : World) :
  whole_milliseconds w ->
  stamps_in_past env w ->
  settled env w (snd (StorageManager.get_fresh_file_id env reference_id w)).
Proof.
  intros Hwhole Hpast.
  unfold StorageManager.get_fresh_file_id, bind, Database.get_file_reference.
  destruct (find_one (has_reference_id reference_id) (file_references w))
    as [r|].
  - destruct (ref_last_refreshed r) as [t|].
    + unfold utcnow.
      assert (Htick : settled env w (set_clock_reads (S (clock_reads w)) w))
        by (apply settled_same_store;
            [reflexivity | cbn; lia | exact Hwhole | exact Hpast]).
      destruct (_ <? _); [exact Htick|].
      apply settled_trans with (b := set_clock_reads (S (clock_reads w)) w);
        [exact Htick|].
      apply refresh_file_id_settled; [apply Htick | apply Htick].
    + now apply refresh_file_id_settled.
  - apply settled_same_store;
      [reflexivity | cbn; lia | exact Hwhole | exact Hpast].
Qed.

Lemma refresh_step_settled (r : FileReference) (w : World) :
  whole_milliseconds w ->
  stamps_in_past env w ->
  settled env w (snd (StorageManager.refresh_step env r w)).
Proof.
  intros Hwhole Hpast.
  unfold StorageManager.refresh_step, bind, logger, sleep, emit.
  match goal with
  | |- context [StorageManager.refresh_file_id env r ?w0] =>
      pose proof (refresh_file_id_settled r w0 Hwhole Hpast) as H;
      destruct (StorageManager.refresh_file_id env r w0) as [res w1]
  end.
  exact H.
Qed.

Lemma for_each_refresh_step_settled (l : list FileReference) (w : World) :
  whole_milliseconds w ->
  stamps_in_past env w ->
  settled env w
    (snd (StorageManager.for_each (StorageManager.refresh_step env) l w)).
Proof.
  revert w. induction l as [|r rest IH]; intros w Hwhole Hpast.
  - apply settled_same_store;
      [reflexivity | cbn; lia | exact Hwhole | exact Hpast].
  - cbn [StorageManager.for_each]. unfold bind.
    pose proof (refresh_step_settled r w Hwhole Hpast) as Hstep.
    destruct (StorageManager.refresh_step env r w) as [u w1].
    apply settled_trans with (b := w1); [exact Hstep|].
    apply IH; apply Hstep.
Qed.

Lemma refresh_cycle_settled (w : World) :
  whole_milliseconds w ->
  stamps_in_past env w ->
  settled env w (snd (StorageManager.refresh_cycle env w)).
Proof.
  intros Hwhole Hpast.
  unfold StorageManager.refresh_cycle, bind.
  rewrite get_expired_file_references_spec.
  generalize (expired_at (utcnow_at env (clock_reads w)) (file_references w)).
  intros expired.
  assert (Htick : settled env w (set_clock_reads (S (clock_reads w)) w))
    by (apply settled_same_store;
        [reflexivity | cbn; lia | exact Hwhole | exact Hpast]).
  pose proof (for_each_refresh_step_settled expired _
                (proj2 Htick) (proj2 (proj1 Htick))) as H.
  destruct (StorageManager.for_each (StorageManager.refresh_step env) expired
              (set_clock_reads (S (clock_reads w)) w)) as [u w1].
  cbn [snd] in H.
  apply settled_trans with (b := w1);
    [apply settled_trans with (b := set_clock_reads (S (clock_reads w)) w);
     assumption|].
  unfold logger, sleep, emit, ret.
  destruct expired; cbn [snd];
    (apply settled_same_store;
     [reflexivity | cbn; lia | exact (proj2 H) | exact (proj2 (proj1 H))]).
Qed.

Lemma refresh_cycles_settled (cycles : nat) (w : World) :
  whole_milliseconds w ->
  stamps_in_past env w ->
  settled env w (snd (StorageManager.refresh_cycles env cycles w)).
Proof.
  revert w. induction cycles as [|n IH]; intros w Hwhole Hpast.
  - apply settled_same_store;
      [reflexivity | cbn; lia | exact Hwhole | exact Hpast].
  - cbn [StorageManager.refresh_cycles]. unfold bind.
    pose proof (refresh_cycle_settled w Hwhole Hpast) as Hcycle.
    destruct (StorageManager.refresh_cycle env w) as [u w1].
    apply settled_trans with (b := w1); [exact Hcycle|].
    apply IH; apply Hcycle.
Qed.

End Stamps.

(** X17. With a clock that never goes back and a store whose
    [last_refreshed] values are whole milliseconds, as the store keeps
    them, none ahead of the clock, a resolution, a soft delete and any
    number of cycles of the refresh task each leave every reference with
    a [last_refreshed] no earlier than before, and again leave whole
    milliseconds, none ahead of the clock. *)
Theorem last_refreshed_never_goes_back
    (env : Env) (w : World) (reference_id : string) (cycles : nat) :
  monotone_clock env ->
  whole_milliseconds w ->
  stamps_in_past env w ->
  settled env w (snd (StorageManager.get_fresh_file_id env reference_id w))
  /\ settled env w (snd (StorageManager.delete_file_reference env reference_id w))
  /\ settled env w (snd (StorageManager.start_file_refresh_task env cycles w)).
Proof.
  intros Hclock Hwhole Hpast. split; [|split].
  - now apply get_fresh_file_id_settled.
  - unfold StorageManager.delete_file_reference.
    now apply update_file_reference_settled.
  - unfold StorageManager.start_file_refresh_task, bind, logger, emit.
    match goal with
    | |- context [StorageManager.refresh_cycles env cycles ?w0] =>
        exact (refresh_cycles_settled env Hclock cycles w0 Hwhole Hpast)
    end.
Qed.

Lemma last_refreshed_never_goes_back_witness :
  settled (Examples.env_at (24 * hour + 999) Examples.probe_ok)
    (Examples.store [Examples.lecture])
    (snd (StorageManager.get_fresh_file_id
            (Examples.env_at (24 * hour + 999) Examples.probe_ok)
            Examples.lecture_id (Examples.store [Examples.lecture])))
  /\ settled (Examples.env_at (24 * hour + 999) Examples.probe_ok)
       (Examples.store [Examples.lecture])
       (snd (StorageManager.delete_file_reference
               (Examples.env_at (24 * hour + 999) Examples.probe_ok)
               Examples.lecture_id (Examples.store [Examples.lecture])))
  /\ settled (Examples.env_at (24 * hour + 999) Examples.probe_ok)
       (Examples.store [Examples.lecture])
       (snd (StorageManager.start_file_refresh_task
               (Examples.env_at (24 * hour + 999) Examples.probe_ok) 1
               (Examples.store [Examples.lecture]))).
Proof.
  apply (last_refreshed_never_goes_back
           (Examples.env_at (24 * hour + 999) Examples.probe_ok)
           (Examples.store [Examples.lecture]) Examples.lecture_id 1).
  - intros n. cbn [utcnow_at Examples.env_at]. lia.
  - intros r t [<-|[]] Ht. injection Ht as <-. reflexivity.
  - intros r t [<-|[]] Ht. injection Ht as <-. vm_compute. discriminate.
Defined.

(** Why the stamps must be whole milliseconds: a stamp of 2400
    microseconds, which the store never holds, would be taken back to
    2000 by a delete at clock reading 2500. *)
Lemma stamp_between_milliseconds_would_go_back :
  stamps_in_past (Examples.env_at 2500 Examples.probe_ok)
    (Examples.store [refreshed_at 2400 Examples.lecture])
  /\ map ref_last_refreshed
       (file_references
          (snd (StorageManager.delete_file_reference
                  (Examples.env_at 2500 Examples.probe_ok) Examples.lecture_id
                  (Examples.store [refreshed_at 2400 Examples.lecture]))))
     = [Some 2000].
Proof.
  split; [|reflexivity].
  intros r t [<-|[]] Ht. injection Ht as <-. vm_compute. discriminate.
Qed.

(* ------------------------------------------------------------------ *)
(** ** Further properties: ingestion *)

(** What the ingestion of a classified payload from a mapped chat adds. *)
Lemma process_channel_media_registers
    (env : Env) (w : World) (update : Update) (msg : Message)
    (mapping : ChannelMapping) (info : FileInfo) (kind : string) :
  message update = Some msg ->
  In (chat_type (chat msg)) ["group"; "supergroup"; "channel"] ->
  mapping_of msg w = Some mapping ->
  payload_kind msg info kind ->
  let w' := snd (StorageManager.process_channel_media env update w) in
  file_references w'
  = (file_references w ++ [ingested_reference env w msg mapping info kind])%list
  /\ media_files w'
     = (media_files w ++ [ingested_media env w msg mapping info kind])%list
  /\ channel_mappings w' = channel_mappings w
  /\ upstream_calls w' = upstream_calls w.
Proof.
  intros Hmsg Htype Hmap Hkind. cbv zeta.
  unfold StorageManager.process_channel_media.
  rewrite Hmsg, (chat_type_accepted _ Htype). cbn [negb].
  unfold mapping_of in Hmap.
  unfold bind, Database.get_channel_mapping. rewrite Hmap.
  rewrite (classify_media_kind msg info kind Hkind).
  repeat split.
Qed.

(** X9. Whatever the update, the ingestion only appends: the references
    and media files already stored are kept in place, at most one
    reference is added, a media file is added exactly when a reference
    is and carries the same identifier, the channel mappings are not
    touched and no upstream call is made. *)
Theorem ingestion_only_appends_paired_entries
    (env : Env) (w : World) (update : Update) :
  let w' := snd (StorageManager.process_channel_media env update w) in
  exists new_references new_media,
    file_references w' = (file_references w ++ new_references)%list
    /\ media_files w' = (media_files w ++ new_media)%list
    /\ map ref_reference_id new_references = map media_reference_id new_media
    /\ (List.length new_references <= 1)%nat
    /\ channel_mappings w' = channel_mappings w
    /\ upstream_calls w' = upstream_calls w.
Proof.
  cbv zeta.
  assert (Hnoop : exists new_references new_media,
             file_references w = (file_references w ++ new_references)%list
             /\ media_files w = (media_files w ++ new_media)%list
             /\ map ref_reference_id new_references
                = map media_reference_id new_media
             /\ (List.length new_references <= 1)%nat
             /\ channel_mappings w = channel_mappings w
             /\ upstream_calls w = upstream_calls w).
  { exists [], []. rewrite !app_nil_r. repeat split. cbn. lia. }
  unfold StorageManager.process_channel_media.
  destruct (message update) as [msg|]; [|exact Hnoop].
  destruct (negb _); [exact Hnoop|].
  unfold bind, Database.get_channel_mapping.
  destruct (find_one _ (channel_mappings w)) as [mapping|]; [|exact Hnoop].
  destruct (StorageManager.classify_media msg) as [[info|] [kind|]];
    try exact Hnoop.
  eexists [_], [_]. repeat split. cbn. lia.
Qed.

Lemma get_storage_stats_counts (w : World) :
  fst (StorageManager.get_storage_stats w)
  = {| total_files := Z.of_nat (List.length (media_files w));
       video_files := count_media "" "video" (media_files w);
       pdf_files := count_media "" "pdf" (media_files w);
       document_files :=
         Z.of_nat (List.length (media_files w))
         - count_media "" "video" (media_files w)
         - count_media "" "pdf" (media_files w) |}.
Proof.
  unfold StorageManager.get_storage_stats, bind, ret,
    Database.get_total_media_files_count, Database.get_course_media_files.
  cbn [Py.truthy String.eqb negb fst].
  rewrite !sort_by_order_length. reflexivity.
Qed.

Lemma count_media_app_other_course (file_type : string) (l : list MediaFile)
    (m : MediaFile) :
  media_course_id m <> "" ->
  count_media "" file_type (l ++ [m]) = count_media "" file_type l.
Proof.
  intros Hcourse. unfold count_media. rewrite filter_app. cbn [filter].
  unfold media_of at 2.
  apply String.eqb_neq in Hcourse. rewrite Hcourse. cbn [andb].
  now rewrite app_nil_r.
Qed.

(** X10. A file ingested for a course whose identifier is not the empty
    string raises [total_files] and [document_files] of the storage
    statistics by one and leaves [video_files] and [pdf_files] as they
    were, whatever its type: an ingested video or PDF is counted as a
    document. *)
Theorem ingested_file_is_counted_as_document
    (env : Env) (w : World) (update : Update) (msg : Message)
    (mapping : ChannelMapping) (info : FileInfo) (kind : string) :
  message update = Some msg ->
  In (chat_type (chat msg)) ["group"; "supergroup"; "channel"] ->
  mapping_of msg w = Some mapping ->
  map_course_id mapping <> "" ->
  payload_kind msg info kind ->
  let before := fst (StorageManager.get_storage_stats w) in
  let after :=
    fst (StorageManager.get_storage_stats
           (snd (StorageManager.process_channel_media env update w))) in
  total_files after = total_files before + 1
  /\ video_files after = video_files before
  /\ pdf_files after = pdf_files before
  /\ document_files after = document_files before + 1.
Proof.
  intros Hmsg Htype Hmap Hcourse Hkind. cbv zeta.
  destruct (process_channel_media_registers env w update msg mapping info kind
              Hmsg Htype Hmap Hkind) as (_ & Hmedia & _).
  rewrite !get_storage_stats_counts. cbn [total_files video_files pdf_files
                                           document_files].
  rewrite Hmedia.
  rewrite !count_media_app_other_course by exact Hcourse.
  rewrite length_app. cbn [List.length]. lia.
Qed.

Lemma ingested_file_is_counted_as_document_witness :
  let before := fst (StorageManager.get_storage_stats Examples.mapped_store) in
  let after :=
    fst (StorageManager.get_storage_stats
           (snd (StorageManager.process_channel_media
                   (Examples.env_at 0 Examples.probe_ok)
                   {| message :=
                        Some (Examples.document_post (Some "application/pdf")) |}
                   Examples.mapped_store))) in
  total_files after = total_files before + 1
  /\ video_files after = video_files before
  /\ pdf_files after = pdf_files before
  /\ document_files after = document_files before + 1.
Proof.
  apply (ingested_file_is_counted_as_document
           (Examples.env_at 0 Examples.probe_ok) Examples.mapped_store
           {| message := Some (Examples.document_post (Some "application/pdf")) |}
           (Examples.document_post (Some "application/pdf"))
           Examples.algebra_channel
           (Examples.posted_file (Some "application/pdf")) "pdf").
  - reflexivity.
  - right. left. reflexivity.
  - reflexivity.
  - discriminate.
  - apply kind_pdf_document with (mime := "application/pdf"); reflexivity.
Defined.

Lemma In_insert_by_order (m x : MediaFile) (l : list MediaFile) :
  In x (insert_by_order m l) <-> x = m \/ In x l.
Proof.
  induction l as [|y rest IH]; simpl.
  - intuition congruence.
  - destruct (media_order m <? media_order y); simpl.
    + intuition congruence.
    + rewrite IH. intuition congruence.
Qed.

Lemma In_sort_by_order (x : MediaFile) (l : list MediaFile) :
  In x (sort_by_order l) <-> In x l.
Proof.
  induction l as [|y rest IH]; simpl; [tauto|].
  rewrite In_insert_by_order, IH. intuition congruence.
Qed.

(** X11. A file ingested from a mapped group or supergroup is listed,
    with its stamps at the millisecond the store keeps, among the media
    files of the mapped course, both in the unfiltered listing and in the
    listing of its own type; and when no media file carried the minted
    identifier before, the lookup by that identifier returns it. *)
Theorem ingested_file_is_listed_under_its_course
    (env : Env) (w : World) (update : Update) (msg : Message)
    (mapping : ChannelMapping) (info : FileInfo) (kind : string) :
  message update = Some msg ->
  In (chat_type (chat msg)) ["group"; "supergroup"] ->
  mapping_of msg w = Some mapping ->
  payload_kind msg info kind ->
  let w' := snd (StorageManager.process_channel_media env update w) in
  let m := ingested_media env w msg mapping info kind in
  In m (fst (StorageManager.get_media_files_by_course
               (map_course_id mapping) None w'))
  /\ In m (fst (StorageManager.get_media_files_by_course
                  (map_course_id mapping) (Some kind) w'))
  /\ (find_one (fun x => String.eqb (media_reference_id x) (minted_id env w))
        (media_files w) = None ->
      Database.get_media_file_by_reference_id (minted_id env w) w'
      = (Some m, w')).
Proof.
  intros Hmsg Htype Hmap Hkind. cbv zeta.
  destruct (process_channel_media_registers env w update msg mapping info kind
              Hmsg (group_chat_is_accepted _ Htype) Hmap Hkind)
    as (_ & Hmedia & _).
  assert (Hkind_nonempty : Py.truthy (Some kind) = true)
    by (destruct Hkind; reflexivity).
  unfold StorageManager.get_media_files_by_course,
    Database.get_course_media_files, Database.get_media_file_by_reference_id.
  cbn [fst]. rewrite Hmedia, Hkind_nonempty. cbn [Py.truthy].
  split; [|split].
  - apply In_sort_by_order, filter_In. split.
    + apply in_or_app. right. now left.
    + cbn [media_course_id ingested_media]. now rewrite String.eqb_refl.
  - apply In_sort_by_order, filter_In. split.
    + apply in_or_app. right. now left.
    + cbn [media_course_id media_file_type ingested_media].
      now rewrite !String.eqb_refl.
  - intros Hnew. rewrite find_one_app, Hnew.
    cbn [media_reference_id ingested_media]. now rewrite String.eqb_refl.
Qed.

Lemma ingested_file_is_listed_under_its_course_witness :
  let env := Examples.env_at 0 Examples.probe_ok in
  let update :=
    {| message := Some (Examples.document_post (Some "application/pdf")) |} in
  let w' :=
    snd (StorageManager.process_channel_media env update Examples.mapped_store) in
  let m :=
    ingested_media env Examples.mapped_store
      (Examples.document_post (Some "application/pdf"))
      Examples.algebra_channel
      (Examples.posted_file (Some "application/pdf")) "pdf" in
  In m (fst (StorageManager.get_media_files_by_course "course_1" None w'))
  /\ In m (fst (StorageManager.get_media_files_by_course "course_1"
                  (Some "pdf") w'))
  /\ Database.get_media_file_by_reference_id
       (minted_id env Examples.mapped_store) w'
     = (Some m, w').
Proof.
  cbv zeta.
  destruct (ingested_file_is_listed_under_its_course
              (Examples.env_at 0 Examples.probe_ok) Examples.mapped_store
              {| message :=
                   Some (Examples.document_post (Some "application/pdf")) |}
              (Examples.document_post (Some "application/pdf"))
              Examples.algebra_channel
              (Examples.posted_file (Some "application/pdf")) "pdf")
    as (H1 & H2 & H3).
  - reflexivity.
  - right. left. reflexivity.
  - reflexivity.
  - apply kind_pdf_document with (mime := "application/pdf"); reflexivity.
  - split; [exact H1 | split; [exact H2 | apply H3; reflexivity]].
Defined.

(* ------------------------------------------------------------------ *)
(** ** Further properties: channel synchronisation *)

Section SyncFacts.
Variable benv : BotEnv.

(** The world a synchronisation leaves, by whether the channel was
    mapped. *)
Lemma sync_channel_content_store (c : Campus) (channel_id course_id : string) :
  let k := clock_reads (world c) in
  let c' := snd (ChannelSync.sync_channel_content benv channel_id course_id c) in
  file_references (world c') = file_references (world c)
  /\ media_files (world c') = media_files (world c)
  /\ channel_mappings (world c')
     = match mapping_for channel_id (world c) with
       | Some _ =>
           update_one (fun m => String.eqb (map_channel_id m) channel_id)
             (Database.synced_at (utcnow_at (base benv) k))
             (channel_mappings (world c))
       | None =>
           update_one (fun m => String.eqb (map_channel_id m) channel_id)
             (Database.synced_at (utcnow_at (base benv) (S (S k))))
             (channel_mappings (world c)
              ++ [{| map_channel_id := channel_id;
                     map_course_id := course_id;
                     map_is_active := true;
                     map_created_at := bson_datetime (utcnow_at (base benv) k);
                     map_last_synced :=
                       bson_datetime (utcnow_at (base benv) (S k)) |}])
       end.
Proof.
  cbv zeta.
  unfold ChannelSync.sync_channel_content, cbind, lift,
    Database.get_channel_mapping, mapping_for.
  destruct (find_one _ (channel_mappings (world c))) as [m|];
    unfold ChannelSync.bot_get_chat, cret, Database.create_channel_mapping,
      Database.update_channel_sync, bind, utcnow, emit, logger, ret;
    cbn [world set_world set_outbox upstream_calls set_upstream_calls
         set_clock_reads set_trace set_channel_mappings clock_reads
         channel_mappings];
    match goal with
    | |- context [bot_get_chat_at benv ?n ?ch] =>
        destruct (bot_get_chat_at benv n ch) as [title|e]
    end;
    repeat split.
Qed.

End SyncFacts.

Lemma update_one_same_length {A} (p : A -> bool) (f : A -> A) (l : list A) :
  List.length (update_one p f l) = List.length l.
Proof.
  induction l as [|x rest IH]; simpl; [reflexivity|].
  destruct (p x); simpl; [reflexivity | now rewrite IH].
Qed.

Lemma update_one_app_unmatched {A} (p : A -> bool) (f : A -> A) (l : list A)
    (x : A) :
  find_one p l = None -> p x = true ->
  update_one p f (l ++ [x]) = (l ++ [f x])%list.
Proof.
  unfold find_one. induction l as [|y rest IH]; simpl; intros Hnone Hx.
  - now rewrite Hx.
  - destruct (p y); [discriminate|]. now rewrite IH.
Qed.

(** X14. Synchronising a channel answers success with no file processed
    and touches neither references nor media files. If the channel had a
    mapping, the mapping keeps its course, whatever course was asked for,
    and only its [last_synced] is stamped; no mapping is added. If it had
    none, one mapping to the requested course, active, is appended. The
    stamps are the clock readings at the millisecond the store keeps. *)
Theorem sync_keeps_an_existing_mapping
    (benv : BotEnv) (c : Campus) (channel_id course_id : string) :
  let k := clock_reads (world c) in
  let result := fst (ChannelSync.sync_channel_content benv channel_id course_id c) in
  let c' := snd (ChannelSync.sync_channel_content benv channel_id course_id c) in
  sync_success result = true
  /\ sync_files_processed result = Some 0
  /\ file_references (world c') = file_references (world c)
  /\ media_files (world c') = media_files (world c)
  /\ match mapping_for channel_id (world c) with
     | Some m =>
         mapping_for channel_id (world c')
         = Some (Database.synced_at (utcnow_at (base benv) k) m)
         /\ List.length (channel_mappings (world c'))
            = List.length (channel_mappings (world c))
     | None =>
         channel_mappings (world c')
         = (channel_mappings (world c)
            ++ [{| map_channel_id := channel_id;
                   map_course_id := course_id;
                   map_is_active := true;
                   map_created_at := bson_datetime (utcnow_at (base benv) k);
                   map_last_synced :=
                     bson_datetime (utcnow_at (base benv) (S (S k))) |}])%list
     end.
Proof.
  cbv zeta.
  destruct (sync_channel_content_store benv c channel_id course_id)
    as (Hrefs & Hmedia & Hmaps).
  split; [|split; [|split; [exact Hrefs | split; [exact Hmedia|]]]].
  - unfold ChannelSync.sync_channel_content, cbind, lift,
      Database.get_channel_mapping.
    destruct (find_one _ (channel_mappings (world c)));
      unfold ChannelSync.bot_get_chat, cret, Database.create_channel_mapping,
        Database.update_channel_sync, bind, utcnow, emit, logger, ret;
      cbn [world set_world set_outbox upstream_calls set_upstream_calls
           set_clock_reads set_trace set_channel_mappings clock_reads
           channel_mappings];
      match goal with
      | |- context [bot_get_chat_at benv ?n ?ch] =>
          destruct (bot_get_chat_at benv n ch)
      end; reflexivity.
  - unfold ChannelSync.sync_channel_content, cbind, lift,
      Database.get_channel_mapping.
    destruct (find_one _ (channel_mappings (world c)));
      unfold ChannelSync.bot_get_chat, cret, Database.create_channel_mapping,
        Database.update_channel_sync, bind, utcnow, emit, logger, ret;
      cbn [world set_world set_outbox upstream_calls set_upstream_calls
           set_clock_reads set_trace set_channel_mappings clock_reads
           channel_mappings];
      match goal with
      | |- context [bot_get_chat_at benv ?n ?ch] =>
          destruct (bot_get_chat_at benv n ch)
      end; reflexivity.
  - destruct (mapping_for channel_id (world c)) as [m|] eqn:Hmap.
    + split.
      * unfold mapping_for in *. rewrite Hmaps.
        rewrite find_one_update_one by (intros x; reflexivity).
        rewrite Hmap. reflexivity.
      * rewrite Hmaps. apply update_one_same_length.
    + unfold mapping_for in Hmap. rewrite Hmaps.
      rewrite (update_one_app_unmatched _ _ _ _ Hmap)
        by (cbn; apply String.eqb_refl).
      reflexivity.
Qed.




(* ------------------------------------------------------------------ *)
(** ** Further properties: enrolments *)

Lemma same_enrolment_iff (user course : string) (uc : UserCourse) :
  Accounts.same_enrolment user course uc = true
  <-> (uc_user_id uc, uc_course_id uc) = (user, course).
Proof.
  unfold Accounts.same_enrolment. rewrite andb_true_iff, !String.eqb_eq.
  split; [intros [-> ->]; reflexivity | intros [= -> ->]; auto].
Qed.

Lemma enrolled_iff (user course : string) (c : Campus) :
  fst (Accounts.is_user_enrolled_in_course user course c) = true
  <-> exists uc,
        In uc (user_courses c)
        /\ uc_user_id uc = user /\ uc_course_id uc = course
        /\ uc_is_active uc = true.
Proof.
  unfold Accounts.is_user_enrolled_in_course. cbn [fst]. split.
  - destruct (find_one _ (user_courses c)) as [uc|] eqn:Hfind; [|discriminate].
    intros _. apply find_one_In in Hfind. destruct Hfind as [Hin Hp].
    apply andb_true_iff in Hp. destruct Hp as [Hsame Hactive].
    apply same_enrolment_iff in Hsame. injection Hsame as Hu Hk.
    exists uc. auto.
  - intros (uc & Hin & Hu & Hk & Hactive).
    destruct (find_one _ (user_courses c)) as [x|] eqn:Hfind; [reflexivity|].
    exfalso. unfold find_one in Hfind.
    pose proof (find_none _ _ Hfind uc Hin) as Hno. cbn in Hno.
    rewrite Hactive, andb_true_r in Hno.
    assert (Accounts.same_enrolment user course uc = true)
      by (apply same_enrolment_iff; congruence).
    congruence.
Qed.

Lemma not_assigned_iff (user course : string) (l : list UserCourse) :
  existsb (Accounts.same_enrolment user course) l = false
  <-> ~ In (user, course) (map (fun uc => (uc_user_id uc, uc_course_id uc)) l).
Proof.
  split.
  - intros Hno Hin. apply in_map_iff in Hin. destruct Hin as (uc & Hpair & Hin).
    assert (existsb (Accounts.same_enrolment user course) l = true).
    { apply existsb_exists. exists uc. split; [exact Hin|].
      now apply same_enrolment_iff. }
    congruence.
  - intros Hno.
    destruct (existsb (Accounts.same_enrolment user course) l) eqn:E;
      [|reflexivity].
    exfalso. apply Hno. apply existsb_exists in E. destruct E as (uc & Hin & Hs).
    apply same_enrolment_iff in Hs. apply in_map_iff. exists uc. auto.
Qed.

(** X18. Assigning a course to a user who has no enrolment document for
    it, active or not, answers [True], appends one active enrolment
    stamped with the clock reading at the millisecond the store keeps,
    and makes the user enrolled. When a document
    for the pair exists the unique index refuses the insert: the answer
    is [False] and the enrolments are unchanged. Either way the
    enrolment of every other (user, course) pair is as before. *)
Theorem assignment_enrols_once
    (benv : BotEnv) (c : Campus) (user course : string) :
  let ok := fst (Accounts.assign_course_to_user benv user course c) in
  let c' := snd (Accounts.assign_course_to_user benv user course c) in
  (if existsb (Accounts.same_enrolment user course) (user_courses c)
   then ok = false /\ user_courses c' = user_courses c
   else ok = true
        /\ user_courses c'
           = (user_courses c
              ++ [{| uc_user_id := user; uc_course_id := course;
                     uc_assigned_at :=
                       bson_datetime
                         (utcnow_at (base benv) (clock_reads (world c)));
                     uc_is_active := true |}])%list
        /\ fst (Accounts.is_user_enrolled_in_course user course c') = true)
  /\ forall other_user other_course,
       (other_user, other_course) <> (user, course) ->
       fst (Accounts.is_user_enrolled_in_course other_user other_course c')
       = fst (Accounts.is_user_enrolled_in_course other_user other_course c).
Proof.
  cbv zeta.
  unfold Accounts.assign_course_to_user, cbind, lift, utcnow.
  cbn [world set_world user_courses].
  destruct (existsb (Accounts.same_enrolment user course) (user_courses c))
    eqn:Hexists; cbn [fst snd user_courses set_user_courses set_world].
  - split; [split; reflexivity|]. reflexivity.
  - split.
    + split; [reflexivity | split; [reflexivity|]].
      apply enrolled_iff. eexists. split.
      * cbn [user_courses set_user_courses]. apply in_or_app. right. now left.
      * repeat split.
    + intros u k Hother.
      unfold Accounts.is_user_enrolled_in_course.
      cbn [fst user_courses set_user_courses].
      rewrite find_one_app.
      destruct (find_one _ (user_courses c)); [reflexivity|].
      match goal with
      | |- context [Accounts.same_enrolment u k ?doc] =>
          destruct (Accounts.same_enrolment u k doc) eqn:Esame
      end; [|reflexivity].
      apply same_enrolment_iff in Esame. cbn in Esame.
      exfalso. apply Hother. congruence.
Qed.

Lemma delete_one_pairs_sublist (user course : string) (l : list UserCourse)
    (x : string * string) :
  In x (map (fun uc => (uc_user_id uc, uc_course_id uc))
          (delete_one (Accounts.same_enrolment user course) l)) ->
  In x (map (fun uc => (uc_user_id uc, uc_course_id uc)) l).
Proof.
  induction l as [|y rest IH]; simpl; [tauto|].
  destruct (Accounts.same_enrolment user course y); simpl; [auto|].
  intros [H|H]; auto.
Qed.

Lemma delete_one_keeps_nodup (user course : string) (l : list UserCourse) :
  NoDup (map (fun uc => (uc_user_id uc, uc_course_id uc)) l) ->
  NoDup (map (fun uc => (uc_user_id uc, uc_course_id uc))
           (delete_one (Accounts.same_enrolment user course) l))
  /\ existsb (Accounts.same_enrolment user course)
       (delete_one (Accounts.same_enrolment user course) l) = false.
Proof.
  induction l as [|y rest IH]; simpl; intros Hnodup; [split; [constructor | reflexivity]|].
  apply NoDup_cons_iff in Hnodup. destruct Hnodup as [Hfresh Hnodup].
  destruct (Accounts.same_enrolment user course y) eqn:Hy.
  - split; [exact Hnodup|].
    apply not_assigned_iff. apply same_enrolment_iff in Hy. now rewrite <- Hy.
  - destruct (IH Hnodup) as [IH1 IH2]. split.
    + simpl. constructor; [|exact IH1].
      intros Hin. apply Hfresh. eapply delete_one_pairs_sublist. exact Hin.
    + simpl. now rewrite Hy, IH2.
Qed.

(** X19. When no two enrolment documents share a (user, course) pair, as
    the unique index demands, assigning and removing both keep it so;
    removing answers whether a document for the pair existed, and after
    it the user is not enrolled in the course. *)
Theorem removal_ends_the_enrolment
    (benv : BotEnv) (c : Campus) (user course : string) :
  NoDup (enrolment_pairs c) ->
  NoDup (enrolment_pairs (snd (Accounts.assign_course_to_user benv user course c)))
  /\ NoDup (enrolment_pairs (snd (Accounts.remove_course_from_user user course c)))
  /\ fst (Accounts.remove_course_from_user user course c)
     = existsb (Accounts.same_enrolment user course) (user_courses c)
  /\ fst (Accounts.is_user_enrolled_in_course user course
            (snd (Accounts.remove_course_from_user user course c)))
     = false.
Proof.
  intros Hnodup. unfold enrolment_pairs in *.
  split; [|split; [|split]].
  - unfold Accounts.assign_course_to_user, cbind, lift, utcnow.
    cbn [world set_world user_courses].
    destruct (existsb (Accounts.same_enrolment user course) (user_courses c))
      eqn:Hexists; cbn [snd user_courses set_user_courses set_world];
      [exact Hnodup|].
    rewrite map_app. cbn [map uc_user_id uc_course_id].
    apply NoDup_app; [exact Hnodup | repeat constructor; intros [] |].
    intros x Hx [<-|[]]. now apply not_assigned_iff in Hexists.
  - cbn [snd Accounts.remove_course_from_user user_courses set_user_courses].
    now apply delete_one_keeps_nodup.
  - reflexivity.
  - destruct (delete_one_keeps_nodup user course (user_courses c) Hnodup)
      as [_ Hgone].
    destruct (fst (Accounts.is_user_enrolled_in_course user course
                     (snd (Accounts.remove_course_from_user user course c))))
      eqn:E; [|reflexivity].
    exfalso. apply enrolled_iff in E. destruct E as (uc & Hin & Hu & Hk & _).
    cbn [snd Accounts.remove_course_from_user user_courses set_user_courses] in Hin.
    assert (existsb (Accounts.same_enrolment user course)
              (delete_one (Accounts.same_enrolment user course) (user_courses c))
            = true).
    { apply existsb_exists. exists uc. split; [exact Hin|].
      apply same_enrolment_iff. congruence. }
    congruence.
Qed.

Lemma removal_ends_the_enrolment_witness :
  let c :=
    Examples.campus (Examples.store []) []
      [{| uc_user_id := "65f0000000000000000000aa"; uc_course_id := "course_1";
          uc_assigned_at := 0; uc_is_active := true |}] in
  let benv := Examples.bot_env 0 (GetChatOk None) in
  NoDup (enrolment_pairs
           (snd (Accounts.assign_course_to_user benv
                   "65f0000000000000000000aa" "course_1" c)))
  /\ NoDup (enrolment_pairs
              (snd (Accounts.remove_course_from_user
                      "65f0000000000000000000aa" "course_1" c)))
  /\ fst (Accounts.remove_course_from_user
            "65f0000000000000000000aa" "course_1" c)
     = existsb (Accounts.same_enrolment "65f0000000000000000000aa" "course_1")
         (user_courses c)
  /\ fst (Accounts.is_user_enrolled_in_course
            "65f0000000000000000000aa" "course_1"
            (snd (Accounts.remove_course_from_user
                    "65f0000000000000000000aa" "course_1" c)))
     = false.
Proof.
  cbv zeta.
  apply (removal_ends_the_enrolment
           (Examples.bot_env 0 (GetChatOk None))
           (Examples.campus (Examples.store []) []
              [{| uc_user_id := "65f0000000000000000000aa";
                  uc_course_id := "course_1";
                  uc_assigned_at := 0; uc_is_active := true |}])
           "65f0000000000000000000aa" "course_1").
  repeat constructor. intros [].
Defined.

(** X20. The courses listed for a user are exactly the active courses of
    the [courses] collection in which the user is enrolled: a course is
    in the list if and only if it is stored, active, and the user has an
    active enrolment for its [course_id]. *)
Theorem user_courses_are_the_active_enrolled_ones
    (c : Campus) (user : string) (k : Course) :
  In k (fst (Accounts.get_user_courses user c))
  <-> In k (courses c)
      /\ course_is_active k = true
      /\ fst (Accounts.is_user_enrolled_in_course user (course_course_id k) c)
         = true.
Proof.
  unfold Accounts.get_user_courses. cbn [fst].
  rewrite filter_In, in_flat_map, enrolled_iff. split.
  - intros [(uc & Huc & Hk) Hactive].
    apply filter_In in Huc. destruct Huc as [Huc Hmatch].
    apply andb_true_iff in Hmatch. destruct Hmatch as [Hu Ha].
    apply filter_In in Hk. destruct Hk as [Hk Hid].
    apply String.eqb_eq in Hu, Hid.
    split; [exact Hk | split; [exact Hactive|]].
    exists uc. auto.
  - intros (Hk & Hactive & uc & Huc & Hu & Hid & Ha).
    split; [|exact Hactive].
    exists uc. split.
    + apply filter_In. split; [exact Huc|].
      apply andb_true_iff. split; [now apply String.eqb_eq | exact Ha].
    + apply filter_In. split; [exact Hk|].
      apply String.eqb_eq. congruence.
Qed.

(* ------------------------------------------------------------------ *)
(** ** Further properties: the bot's device resets and accounts *)

Lemma find_by_unique_id (l : list User) (u : User) :
  NoDup (map user_id l) ->
  In u l ->
  find_one (fun x => String.eqb (user_id x) (user_id u)) l = Some u.
Proof.
  unfold find_one. induction l as [|y rest IH]; simpl; intros Hnodup Hin;
    [contradiction|].
  apply NoDup_cons_iff in Hnodup. destruct Hnodup as [Hfresh Hnodup].
  destruct Hin as [->|Hin].
  - now rewrite String.eqb_refl.
  - destruct (String.eqb (user_id y) (user_id u)) eqn:E.
    + exfalso. apply String.eqb_eq in E. apply Hfresh. rewrite E.
      now apply in_map.
    + now apply IH.
Qed.

Lemma In_update_one_matched {A} (p : A -> bool) (f : A -> A) (l : list A)
    (y : A) :
  In y (update_one p f l) ->
  In y l \/ exists x, In x l /\ p x = true /\ y = f x.
Proof.
  induction l as [|x rest IH]; simpl; [tauto|].
  destruct (p x) eqn:Hx; simpl.
  - intros [<-|H]; [right; exists x; auto | auto].
  - intros [<-|H]; [auto|].
    destruct (IH H) as [H1|(z & Hz & Hp & ->)]; [auto|].
    right. exists z. auto.
Qed.

Lemma map_update_one_invariant {A B} (g : A -> B) (p : A -> bool) (f : A -> A)
    (l : list A) :
  (forall x, g (f x) = g x) -> map g (update_one p f l) = map g l.
Proof.
  intros Hg. induction l as [|x rest IH]; simpl; [reflexivity|].
  destruct (p x); simpl; [now rewrite Hg | now rewrite IH].
Qed.

Lemma update_one_ext {A} (p : A -> bool) (f g : A -> A) (l : list A) (x : A) :
  find_one p l = Some x -> f x = g x -> update_one p f l = update_one p g l.
Proof.
  unfold find_one. induction l as [|y rest IH]; simpl; [discriminate|].
  destruct (p y).
  - intros [= ->] Hfg. now rewrite Hfg.
  - intros Hfind Hfg. now rewrite IH.
Qed.

Section ResetFacts.
Variable benv : BotEnv.

(** The device reset of a stored user goes through and counts one more. *)
Lemma reset_user_device_found (c : Campus) (u : User) :
  find_one (fun x => String.eqb (user_id x) (user_id u)) (users c) = Some u ->
  Accounts.reset_user_device benv (user_id u) c
  = (true,
     set_users
       (update_one (fun x => String.eqb (user_id x) (user_id u))
          (after_device_reset
             (bson_datetime (utcnow_at (base benv) (clock_reads (world c)))))
          (users c))
       (set_world (set_clock_reads (S (clock_reads (world c))) (world c)) c)).
Proof.
  intros Hfind.
  unfold Accounts.reset_user_device, Accounts.get_user_by_id,
    Accounts.update_user, cbind, lift, utcnow, cret.
  rewrite Hfind. cbn [users set_world world].
  rewrite Hfind.
  match goal with
  | |- context [User_eq_dec u ?v] => destruct (User_eq_dec u v) as [Heq|Hne]
  end.
  - exfalso. apply (f_equal user_device_reset_count) in Heq.
    cbn in Heq. lia.
  - f_equal. f_equal.
    apply update_one_ext with (x := u); [exact Hfind | reflexivity].
Qed.

Lemma reset_device_command_effect (c : Campus) (update : Command) :
  NoDup (map user_id (users c)) ->
  let k := clock_reads (world c) in
  let c' := snd (TelegramBot.reset_device_command benv update c) in
  match user_of (tg_id (effective_user update)) c with
  | None =>
      users c' = users c
      /\ user_activities c' = user_activities c
      /\ outbox c'
         = (outbox c ++ [ReplyText TelegramBot.user_not_found_message])%list
  | Some u =>
      if 2 <=? user_device_reset_count u then
        users c' = users c
        /\ user_activities c' = user_activities c
        /\ outbox c'
           = (outbox c ++ [ReplyText TelegramBot.limit_reached_message])%list
      else
        users c'
        = update_one (fun x => String.eqb (user_id x) (user_id u))
            (after_device_reset (bson_datetime (utcnow_at (base benv) k)))
            (users c)
        /\ user_activities c'
           = (user_activities c
              ++ [{| act_user_id := user_id u;
                     act_activity_type := "device_reset";
                     act_details :=
                       [("reset_count", user_device_reset_count u + 1)];
                     act_timestamp :=
                       bson_datetime (utcnow_at (base benv) (S k)) |}])%list
        /\ outbox c'
           = (outbox c
              ++ [ReplyText
                    (TelegramBot.reset_successful_message
                       (user_device_reset_count u + 1)
                       (2 - (user_device_reset_count u + 1)))])%list
  end.
Proof.
  intros Hnodup. cbv zeta.
  unfold TelegramBot.reset_device_command, user_of.
  unfold cbind, Accounts.get_user_by_telegram_id.
  destruct (find_one _ (users c)) as [u|] eqn:Hfind; cbv beta iota;
    [|repeat split].
  destruct (2 <=? user_device_reset_count u); [repeat split|].
  apply find_one_In in Hfind. destruct Hfind as [Hin _].
  rewrite (reset_user_device_found c u (find_by_unique_id _ _ Hnodup Hin)).
  repeat split.
Qed.

End ResetFacts.



Lemma same_id_same_user (l : list User) (x y : User) :
  NoDup (map user_id l) -> In x l -> In y l -> user_id x = user_id y -> x = y.
Proof.
  intros Hnodup Hx Hy Hid.
  pose proof (find_by_unique_id l x Hnodup Hx) as Fx.
  pose proof (find_by_unique_id l y Hnodup Hy) as Fy.
  rewrite Hid in Fx. congruence.
Qed.

(** X22. As long as accounts have distinct [_id]s and none counts more
    than two device resets, no [/reset_device] command, whoever sends it,
    brings any account above two; the [_id]s stay distinct, so this holds
    along any sequence of such commands. *)
Theorem reset_count_stays_within_two
    (benv : BotEnv) (c : Campus) (update : Command) :
  NoDup (map user_id (users c)) ->
  (forall x, In x (users c) -> user_device_reset_count x <= 2) ->
  let c' := snd (TelegramBot.reset_device_command benv update c) in
  NoDup (map user_id (users c'))
  /\ forall x, In x (users c') -> user_device_reset_count x <= 2.
Proof.
  intros Hnodup Hbound. cbv zeta.
  pose proof (reset_device_command_effect benv c update Hnodup) as H.
  cbv zeta in H. unfold user_of in H.
  destruct (find_one _ (users c)) as [u|] eqn:Hfind.
  - destruct (2 <=? user_device_reset_count u) eqn:Hcap.
    + destruct H as (-> & _). auto.
    + destruct H as (-> & _). split.
      * rewrite map_update_one_invariant by reflexivity. exact Hnodup.
      * intros x Hx. apply find_one_In in Hfind. destruct Hfind as [Hu _].
        apply In_update_one_matched in Hx.
        destruct Hx as [Hx|(y & Hy & Hid & ->)]; [auto|].
        apply String.eqb_eq in Hid.
        rewrite (same_id_same_user _ y u Hnodup Hy Hu Hid).
        cbn [user_device_reset_count after_device_reset].
        apply Z.leb_gt in Hcap. lia.
  - destruct H as (-> & _). auto.
Qed.

Lemma reset_count_stays_within_two_witness :
  let c' :=
    snd (TelegramBot.reset_device_command
           (Examples.bot_env 100 (GetChatOk None)) Examples.command_of_ada
           (Examples.campus (Examples.store []) [Examples.student 2] [])) in
  NoDup (map user_id (users c'))
  /\ forall x, In x (users c') -> user_device_reset_count x <= 2.
Proof.
  cbv zeta.
  apply (reset_count_stays_within_two
           (Examples.bot_env 100 (GetChatOk None))
           (Examples.campus (Examples.store []) [Examples.student 2] [])
           Examples.command_of_ada).
  - repeat constructor. intros [].
  - intros x [<-|[]]. cbn. lia.
Defined.

(** X23. The store's own [reset_user_device], the path open to
    administrators, has no cap: for a stored user, whatever the count so
    far, it answers [True], and the user is then stored with the count
    raised by one, the device fingerprint and information cleared, and
    [updated_at] at the clock reading, at the millisecond the store
    keeps. *)
Theorem reset_user_device_has_no_cap
    (benv : BotEnv) (c : Campus) (u : User) :
  NoDup (map user_id (users c)) ->
  In u (users c) ->
  let reset := Accounts.reset_user_device benv (user_id u) c in
  fst reset = true
  /\ fst (Accounts.get_user_by_id (user_id u) (snd reset))
     = Some (after_device_reset
               (bson_datetime (utcnow_at (base benv) (clock_reads (world c))))
               u).
Proof.
  intros Hnodup Hin. cbv zeta.
  pose proof (find_by_unique_id _ _ Hnodup Hin) as Hfind.
  rewrite (reset_user_device_found benv c u Hfind).
  split; [reflexivity|].
  unfold Accounts.get_user_by_id. cbn [fst snd users set_users].
  rewrite find_one_update_one by (intros x; reflexivity).
  unfold find_one in *. rewrite Hfind. reflexivity.
Qed.

Lemma reset_user_device_has_no_cap_witness :
  let reset :=
    Accounts.reset_user_device (Examples.bot_env 2999 (GetChatOk None))
      (user_id (Examples.student 7))
      (Examples.campus (Examples.store []) [Examples.student 7] []) in
  fst reset = true
  /\ fst (Accounts.get_user_by_id (user_id (Examples.student 7)) (snd reset))
     = Some (after_device_reset 2000 (Examples.student 7)).
Proof.
  cbv zeta.
  apply (reset_user_device_has_no_cap
           (Examples.bot_env 2999 (GetChatOk None))
           (Examples.campus (Examples.store []) [Examples.student 7] [])
           (Examples.student 7)).
  - repeat constructor. intros [].
  - left. reflexivity.
Defined.

Lemma find_one_survives_update {A} (p q : A -> bool) (f : A -> A) (l : list A) :
  (forall x, p (f x) = p x) ->
  find_one p l <> None -> find_one p (update_one q f l) <> None.
Proof.
  intros Hp. unfold find_one.
  induction l as [|x rest IH]; simpl; [tauto|].
  destruct (q x); simpl.
  - rewrite Hp. destruct (p x); [discriminate | tauto].
  - destruct (p x); [discriminate | exact IH].
Qed.

(** X24. [/start] from a sender without an account appends exactly one
    account for the sender's Telegram identifier, not banned and with no
    device reset counted. From a sender with an account it adds none and
    leaves every account as it was up to [updated_at] and
    [last_activity]: in particular a banned account stays banned. In both
    cases the sender has an account afterwards, so repeating [/start]
    never creates a second one, and one welcome message is sent to the
    sender's chat. *)
Theorem start_command_creates_at_most_one_account
    (benv : BotEnv) (c : Campus) (update : Command) :
  let sender := effective_user update in
  let c' := snd (TelegramBot.start_command benv update c) in
  match user_of (tg_id sender) c with
  | None =>
      exists u,
        users c' = (users c ++ [u])%list
        /\ user_telegram_id u = Py.str_int (tg_id sender)
        /\ user_is_banned u = false
        /\ user_device_reset_count u = 0
  | Some _ => map account (users c') = map account (users c)
  end
  /\ user_of (tg_id sender) c' <> None
  /\ outbox c'
     = (outbox c
        ++ [SendMessage (effective_chat_id update)
              (TelegramBot.welcome_message (tg_first_name sender)
                 (webapp_url benv ++ "/miniapp?user_id="
                  ++ Py.str_int (tg_id sender)))])%list.
Proof.
  cbv zeta.
  unfold TelegramBot.start_command, user_of.
  unfold cbind, Accounts.get_user_by_telegram_id.
  destruct (find_one _ (users c)) as [u|] eqn:Hfind; cbv beta iota.
  - unfold Accounts.update_user, cbind, lift, utcnow, cret,
      TelegramBot.send_message, ask.
    cbn [world set_world users set_users snd outbox set_outbox clock_reads
         set_clock_reads].
    split; [|split; [|reflexivity]].
    + apply map_update_one_invariant. reflexivity.
    + apply find_one_survives_update; [reflexivity|].
      rewrite Hfind. discriminate.
  - unfold Accounts.create_user, Accounts.new_object_id, cbind, lift, utcnow,
      cret, logger, emit, TelegramBot.send_message, ask.
    cbn [world set_world users set_users snd outbox set_outbox clock_reads
         set_clock_reads object_ids_drawn set_object_ids_drawn trace set_trace].
    split; [|split; [|reflexivity]].
    + eexists. repeat split.
    + rewrite find_one_app, Hfind. cbn [user_telegram_id].
      rewrite String.eqb_refl. discriminate.
Qed.

(* ------------------------------------------------------------------ *)
(** ** Further properties: a cycle whose probes all succeed *)


Section SuccessfulCycle.
Variable env : Env.
Hypothesis clock_never_goes_back : monotone_clock env.
Hypothesis every_probe_succeeds :
  forall n handle, exists path, bot_get_file_at env n handle = GetFileOk path.




End SuccessfulCycle.


